(** * HealthKart influencer dashboard: a shallow embedding of [dashboard.py]

    The script is a straight-line Streamlit page: it loads four CSV files,
    reads three sidebar widgets, filters the influencer table, joins and
    aggregates the tracking table, and prints metrics, charts and tables.

    The embedding has three layers.
    - [Pandas]: the data-frame operations the script calls ([merge],
      [groupby(...).agg], [isin], [sum], [head], [sort_values], ...), written
      from their documented behaviour.  Floating-point numbers are modelled
      as exact rationals kept in lowest terms.
    - the data computations of the script, one definition per assignment of
      the source, with the source's variable names;
    - the script itself, [dashboard], in a small state-and-exception monad:
      the state holds what Streamlit has printed so far and the Python
      variables that later sections test with [in locals()]. *)

From Stdlib Require Import List String Ascii ZArith QArith Qreduction Bool Lia.
From Stdlib Require Import Permutation Sorted.
Import ListNotations.
Open Scope string_scope.
Open Scope list_scope.

(** ** Python results: a value or a raised exception *)

Inductive exn :=
| KeyError (key : string)
| NameError (name : string)
| FileNotFoundError (filename : string)
| OtherError (msg : string)
| StopException.

(** [str(e)] as the script interpolates it in its messages. *)
Definition str_exn (e : exn) : string :=
  match e with
  | KeyError k => "'" ++ k ++ "'"
  | NameError n => "name '" ++ n ++ "' is not defined"
  | FileNotFoundError f => "[Errno 2] No such file or directory: '" ++ f ++ "'"
  | OtherError m => m
  | StopException => ""
  end.

Inductive result (A : Type) :=
| Ok (a : A)
| Raise (e : exn).
Arguments Ok {A} a.
Arguments Raise {A} e.

Definition rbind {A B} (m : result A) (k : A -> result B) : result B :=
  match m with
  | Ok a => k a
  | Raise e => Raise e
  end.

Declare Scope result_scope.
Delimit Scope result_scope with result.
Notation "x <- m ;; k" := (rbind m (fun x => k))
  (at level 61, m at next level, right associativity) : result_scope.

(** ** The data-frame library *)

Module Pandas.

(** A cell holds a number, a text or a timestamp ([pd.to_datetime] output);
    [None] is the missing value (NaN, NaT, None). *)
Inductive value :=
| VNum (q : Q)
| VStr (s : string)
| VDate (d : Z).

Definition cell := option value.
Definition row := list cell.

Record DataFrame := mkDF { columns : list string; rows : list row }.

Definition value_eqb (a b : value) : bool :=
  match a, b with
  | VNum p, VNum q => Qeq_bool p q
  | VStr s, VStr t => String.eqb s t
  | VDate d, VDate e => Z.eqb d e
  | _, _ => false
  end.

(** Join keys: pandas matches a missing key with a missing key. *)
Definition cell_eqb (a b : cell) : bool :=
  match a, b with
  | None, None => true
  | Some x, Some y => value_eqb x y
  | _, _ => false
  end.

(** Order used to sort group keys: numbers, then timestamps, then text. *)
Definition value_ltb (a b : value) : bool :=
  match a, b with
  | VNum p, VNum q => negb (Qle_bool q p)
  | VNum _, _ => true
  | VDate _, VNum _ => false
  | VDate d, VDate e => Z.ltb d e
  | VDate _, VStr _ => true
  | VStr s, VStr t => String.ltb s t
  | VStr _, _ => false
  end.

Fixpoint index_of (c : string) (cs : list string) : option nat :=
  match cs with
  | [] => None
  | c' :: cs' =>
      if String.eqb c c' then Some 0%nat
      else option_map S (index_of c cs')
  end.

(** [c in df.columns] *)
Definition has_column (df : DataFrame) (c : string) : bool :=
  match index_of c (columns df) with
  | Some _ => true
  | None => false
  end.

Definition get (i : nat) (r : row) : cell := nth i r None.

(** [df[c]]: the column as a list of cells. *)
Definition column (df : DataFrame) (c : string) : result (list cell) :=
  match index_of c (columns df) with
  | Some i => Ok (map (get i) (rows df))
  | None => Raise (KeyError c)
  end.

(** [len(df)] and [df.empty] (no rows or no columns). *)
Definition len (df : DataFrame) : nat := List.length (rows df).

Definition empty (df : DataFrame) : bool :=
  match rows df, columns df with
  | [], _ => true
  | _, [] => true
  | _, _ => false
  end.

Definition head (n : nat) (df : DataFrame) : DataFrame :=
  mkDF (columns df) (firstn n (rows df)).

(** Every row has one cell per column. *)
Definition well_formed (df : DataFrame) : Prop :=
  Forall (fun r => List.length r = List.length (columns df)) (rows df).

(** *** Numeric columns *)

(** The numeric reading of a cell; a cell that holds no number counts as
    missing. *)
Definition num_of (c : cell) : option Q :=
  match c with
  | Some (VNum q) => Some q
  | _ => None
  end.

Definition of_num (q : Q) : cell := Some (VNum (Qred q)).

Fixpoint dropna (cs : list cell) : list Q :=
  match cs with
  | [] => []
  | c :: cs' =>
      match num_of c with
      | Some q => q :: dropna cs'
      | None => dropna cs'
      end
  end.

Definition qsum (qs : list Q) : Q := fold_right Qplus 0%Q qs.

(** [Series.sum()]: missing values are skipped, the empty sum is 0. *)
Definition sum (cs : list cell) : Q := Qred (qsum (dropna cs)).

(** [Series.mean()]: missing values are skipped, the mean of nothing is
    missing. *)
Definition mean (cs : list cell) : cell :=
  match dropna cs with
  | [] => None
  | qs => of_num (qsum qs / inject_Z (Z.of_nat (List.length qs)))
  end.

(** *** Selection *)

(** [s.isin(values)], for a list of values without missing entries. *)
Definition isin (values : list value) (c : cell) : bool :=
  match c with
  | Some v => existsb (value_eqb v) values
  | None => false
  end.

(** [s == v] for a text constant [v]: exact comparison, false on missing. *)
Definition eq_str (v : string) (c : cell) : bool :=
  match c with
  | Some (VStr s) => String.eqb s v
  | _ => false
  end.

(** [df[mask]] where the mask is computed from column [i]. *)
Definition select_rows (p : cell -> bool) (i : nat) (df : DataFrame) : DataFrame :=
  mkDF (columns df) (filter (fun r => p (get i r)) (rows df)).

(** [df[[c1; ...; cn]]] *)
Fixpoint indices (cs cols : list string) : result (list nat) :=
  match cs with
  | [] => Ok []
  | c :: cs' =>
      match index_of c cols with
      | Some i => (ix <- indices cs' cols ;; Ok (i :: ix))%result
      | None => Raise (KeyError c)
      end
  end.

Definition project (df : DataFrame) (cs : list string) : result DataFrame :=
  (ix <- indices cs (columns df) ;;
   Ok (mkDF cs (map (fun r => map (fun i => get i r) ix) (rows df))))%result.

(** [df[c] = values]: overwrite the column when it exists, append it
    otherwise. *)
Fixpoint set_nth (i : nat) (c : cell) (r : row) : row :=
  match i, r with
  | O, _ :: r' => c :: r'
  | S i', x :: r' => x :: set_nth i' c r'
  | _, [] => []
  end.

Fixpoint zip_with {A B C} (f : A -> B -> C) (l : list A) (m : list B) : list C :=
  match l, m with
  | a :: l', b :: m' => f a b :: zip_with f l' m'
  | _, _ => []
  end.

Definition set_column (df : DataFrame) (c : string) (values : list cell) : DataFrame :=
  match index_of c (columns df) with
  | Some i => mkDF (columns df) (zip_with (fun r v => set_nth i v r) (rows df) values)
  | None => mkDF (columns df ++ [c]) (zip_with (fun r v => r ++ [v]) (rows df) values)
  end.

(** *** merge *)

Inductive how := Left | Inner.

Definition drop_nth {A} (i : nat) (l : list A) : list A :=
  firstn i l ++ skipn (S i) l.

(** A column that is not the key and whose name occurs on the other side
    gets this side's suffix. *)
Definition suffixed (sfx : string) (others : list string) (on c : string) : string :=
  if String.eqb c on then c
  else if existsb (String.eqb c) others then c ++ sfx
  else c.

(** The output rows of one left row: one per matching right row, in the
    right table's order; without a match, a left join pads with missing
    values and an inner join gives nothing. *)
Definition join_row (h : how) (kl kr width : nat) (rrows : list row) (lr : row)
  : list row :=
  match filter (fun rr => cell_eqb (get kl lr) (get kr rr)) rrows with
  | [] =>
      match h with
      | Left => [lr ++ repeat None width]
      | Inner => []
      end
  | ms => map (fun rr => lr ++ drop_nth kr rr) ms
  end.

(** [l.merge(r, on=on, how=h, suffixes=sfx)] *)
Definition merge (l r : DataFrame) (on : string) (h : how) (sfx : string * string)
  : result DataFrame :=
  match index_of on (columns l), index_of on (columns r) with
  | Some kl, Some kr =>
      let rcols := drop_nth kr (columns r) in
      Ok (mkDF
            (map (suffixed (fst sfx) rcols on) (columns l)
             ++ map (suffixed (snd sfx) (columns l) on) rcols)
            (flat_map (join_row h kl kr (List.length rcols) (rows r)) (rows l)))
  | _, _ => Raise (KeyError on)
  end.

Definition default_suffixes : string * string := ("_x", "_y").

(** *** groupby(...).agg(...).reset_index() *)

Inductive aggfun := Mean | Sum.

Definition agg (f : aggfun) (cs : list cell) : cell :=
  match f with
  | Mean => mean cs
  | Sum => of_num (sum cs)
  end.

(** The distinct keys, in increasing order. *)
Fixpoint insert_key (v : value) (ks : list value) : list value :=
  match ks with
  | [] => [v]
  | k :: ks' =>
      if value_eqb v k then ks
      else if value_ltb v k then v :: ks
      else k :: insert_key v ks'
  end.

(** Rows whose key is missing belong to no group. *)
Definition group_keys (cs : list cell) : list value :=
  fold_left (fun acc c => match c with Some v => insert_key v acc | None => acc end)
            cs [].

Definition group_rows (k : nat) (v : value) (rs : list row) : list row :=
  filter (fun r => cell_eqb (Some v) (get k r)) rs.

Definition groupby_agg (df : DataFrame) (by_ : string) (spec : list (string * aggfun))
  : result DataFrame :=
  match index_of by_ (columns df) with
  | None => Raise (KeyError by_)
  | Some k =>
      (ix <- indices (map fst spec) (columns df) ;;
       Ok (mkDF (by_ :: map fst spec)
             (map (fun v =>
                     Some v ::
                     zip_with (fun i f => agg f (map (get i) (group_rows k v (rows df))))
                              ix (map snd spec))
                  (group_keys (map (get k) (rows df))))))%result
  end.

(** *** sort_values(by=..., ascending=False)

    The script sorts with the library's default algorithm, which pandas
    documents as not stable.  The algorithm is therefore a parameter: a
    [sorter] takes the numeric sort key of a row and the rows.  What the
    library guarantees is [sorter_ok]: the result is a rearrangement of the
    rows, keys never increase along it, and missing keys come last. *)

Definition sorter := (row -> option Q) -> list row -> list row.

Definition desc (a b : option Q) : Prop :=
  match a, b with
  | _, None => True
  | None, Some _ => False
  | Some x, Some y => (y <= x)%Q
  end.

Record sorter_ok (srt : sorter) : Prop := {
  sorter_perm : forall key rs, Permutation (srt key rs) rs;
  sorter_desc : forall key rs,
      StronglySorted (fun a b => desc (key a) (key b)) (srt key rs)
}.

Definition sort_values (srt : sorter) (df : DataFrame) (by_ : string)
  : result DataFrame :=
  match index_of by_ (columns df) with
  | Some i => Ok (mkDF (columns df) (srt (fun r => num_of (get i r)) (rows df)))
  | None => Raise (KeyError by_)
  end.

(** Two sorters that meet the contract: insertion sorts that place a row
    after, respectively before, the rows that have its key. *)
Definition desc_b (strict : bool) (a b : option Q) : bool :=
  match a, b with
  | Some _, None => true
  | None, None => negb strict
  | None, Some _ => false
  | Some x, Some y => if strict then negb (Qle_bool x y) else Qle_bool y x
  end.

Fixpoint insert_by (strict : bool) (key : row -> option Q) (r : row) (rs : list row)
  : list row :=
  match rs with
  | [] => [r]
  | r' :: rs' =>
      if desc_b strict (key r') (key r) then r' :: insert_by strict key r rs'
      else r :: rs
  end.

(** Keeps rows of equal key in their input order. *)
Definition stable_sort : sorter :=
  fun key rs => fold_left (fun acc r => insert_by false key r acc) rs [].


(** *** unique and value_counts *)

Fixpoint unique (cs : list cell) : list value :=
  match cs with
  | [] => []
  | None :: cs' => unique cs'
  | Some v :: cs' =>
      v :: filter (fun w => negb (value_eqb v w)) (unique cs')
  end.

Definition count_of (v : value) (cs : list cell) : nat :=
  List.length (filter (cell_eqb (Some v)) cs).

(** [s.value_counts()]: one row per distinct value with its number of
    occurrences, most frequent first. *)
Definition value_counts (srt : sorter) (name : string) (cs : list cell) : DataFrame :=
  mkDF [name; "count"]
       (srt (fun r => num_of (get 1 r))
            (map (fun v => [Some v; of_num (inject_Z (Z.of_nat (count_of v cs)))])
                 (unique cs))).

(** *** to_datetime(..., errors='coerce')

    How one value converts to a timestamp belongs to the library and is a
    parameter; a value it cannot convert becomes the missing value, and so
    does a missing value. *)
Definition to_datetime (parse : value -> option Z) (c : cell) : cell :=
  match c with
  | Some v => option_map VDate (parse v)
  | None => None
  end.

Definition date_of (c : cell) : option Z :=
  match c with
  | Some (VDate d) => Some d
  | _ => None
  end.

(** [Series.min()] and [Series.max()] of a timestamp column: missing values
    are skipped, the extremum of nothing is missing. *)
Fixpoint extremum (pick : Z -> Z -> Z) (cs : list cell) : option Z :=
  match cs with
  | [] => None
  | c :: cs' =>
      match date_of c, extremum pick cs' with
      | Some d, Some e => Some (pick d e)
      | Some d, None => Some d
      | None, e => e
      end
  end.

Definition date_min := extremum Z.min.
Definition date_max := extremum Z.max.

End Pandas.

Import Pandas.

(** ** The script's state and its monad *)

Inductive shown :=
| Num (q : Q)
| Text (s : string).

(** What the page shows, in the order the script asks for it.  Decorative
    glyphs of titles and labels, and the formatting of numbers, are left
    out; a chart is recorded with its title, its data and the column that
    names its bars or slices. *)
Inductive output :=
| Title (text : string)
| Markdown (text : string)
| Header (text : string)
| Subheader (text : string)
| SidebarHeader (text : string)
| SidebarWarning (msg : string)
| Multiselect (label : string) (options : list value)
| DateInput (label : string) (value : option Z * option Z)
            (min_value max_value : option Z)
| Metric (label : string) (v : shown)
| Cards (data : DataFrame)
| Chart (title : string) (data : DataFrame) (names : string)
| Dataframe (data : DataFrame)
| Warning (msg : string)
| Error (msg : string)
| Info (msg : string)
| DownloadButton (label : string) (data : DataFrame) (file_name : string).

(** The page so far and the module-level variables that one section binds
    and another reads. *)
Record State := mkState {
  printed : list output;
  name_col : option string;
  roas_summary : option DataFrame;
  campaign_summary : option DataFrame
}.

Definition initial : State := mkState [] None None None.

Definition Script (A : Type) : Type := State -> result A * State.

Definition ret {A} (a : A) : Script A := fun s => (Ok a, s).

Definition bind {A B} (m : Script A) (k : A -> Script B) : Script B :=
  fun s =>
    match m s with
    | (Ok a, s') => k a s'
    | (Raise e, s') => (Raise e, s')
    end.

Declare Scope script_scope.
Delimit Scope script_scope with script.
Notation "x <- m ;; k" := (bind m (fun x => k))
  (at level 61, m at next level, right associativity) : script_scope.
Notation "m ;; k" := (bind m (fun _ => k))
  (at level 61, right associativity) : script_scope.

Definition lift {A} (r : result A) : Script A := fun s => (r, s).

Definition raise {A} (e : exn) : Script A := lift (Raise e).

(** [st.xxx(...)] *)
Definition say (o : output) : Script unit :=
  fun s => (Ok tt, mkState (printed s ++ [o]) (name_col s) (roas_summary s)
                           (campaign_summary s)).

Definition set_name_col (c : string) : Script unit :=
  fun s => (Ok tt, mkState (printed s) (Some c) (roas_summary s) (campaign_summary s)).

Definition set_roas_summary (df : DataFrame) : Script unit :=
  fun s => (Ok tt, mkState (printed s) (name_col s) (Some df) (campaign_summary s)).

Definition set_campaign_summary (df : DataFrame) : Script unit :=
  fun s => (Ok tt, mkState (printed s) (name_col s) (roas_summary s) (Some df)).

(** Reading [name_col]: an unbound name raises NameError. *)
Definition get_name_col : Script string :=
  fun s =>
    match name_col s with
    | Some c => (Ok c, s)
    | None => (Raise (NameError "name_col"), s)
    end.

(** ['v' in locals()] *)
Definition locals {A} (var : State -> option A) : Script (option A) :=
  fun s => (Ok (var s), s).

(** [try: body  except Exception as e: handler(e)]; what the body printed
    and bound before it raised stays.  [st.stop()] is not an [Exception]
    and passes through. *)
Definition try_except (body : Script unit) (handler : exn -> Script unit)
  : Script unit :=
  fun s =>
    match body s with
    | (Ok tt, s') => (Ok tt, s')
    | (Raise StopException, s') => (Raise StopException, s')
    | (Raise e, s') => handler e s'
    end.

(** ** Loader *)

(** A path holds no file, a file pandas cannot read (with the message of
    the error it raises), or a table. *)
Inductive file :=
| Absent
| Unreadable (msg : string)
| Csv (df : DataFrame).

Definition filesystem := string -> file.

Definition read_csv (fs : filesystem) (path : string) : result DataFrame :=
  match fs path with
  | Absent => Raise (FileNotFoundError path)
  | Unreadable msg => Raise (OtherError msg)
  | Csv df => Ok df
  end.

Definition load_data (fs : filesystem)
  : option DataFrame * option DataFrame * option DataFrame * option DataFrame
    * option string :=
  match (influencers <- read_csv fs "influencers.csv" ;;
         posts <- read_csv fs "posts.csv" ;;
         tracking <- read_csv fs "tracking_data.csv" ;;
         payouts <- read_csv fs "payouts.csv" ;;
         Ok (influencers, posts, tracking, payouts))%result with
  | Ok (influencers, posts, tracking, payouts) =>
      (Some influencers, Some posts, Some tracking, Some payouts, None)
  | Raise (FileNotFoundError filename) =>
      (None, None, None, None, Some ("File not found: " ++ filename)%string)
  | Raise e =>
      (None, None, None, None, Some ("Error loading data: " ++ str_exn e)%string)
  end.

(** ** Sidebar and filters *)

(** What the three widgets return in this run, and the clock. *)
Record Session := mkSession {
  platform_selection : list value;
  category_selection : list value;
  date_selection : list Z;
  now : string
}.

Definition multiselect_filter (label col : string) (influencers : DataFrame)
    (selection : list value) : Script (list value) :=
  match column influencers col with
  | Ok cs =>
      (say (Multiselect label (unique cs)) ;;
       ret selection)%script
  | Raise _ =>
      (say (SidebarWarning ("No '" ++ col ++ "' column found in influencers data")%string) ;;
       ret [])%script
  end.

(** The date widget.  The column is parsed in place; the widget is offered
    the smallest and largest parsed date as value and as bounds.  The
    tuple it returns is bound to [date_range], which nothing reads. *)
Definition date_filter (parse : value -> option Z) (ui : Session)
    (tracking : DataFrame) : Script DataFrame :=
  if has_column tracking "date" || has_column tracking "campaign_date" then
    let date_col := if has_column tracking "date" then "date" else "campaign_date" in
    (dates <- lift (column tracking date_col) ;;
     let parsed := map (to_datetime parse) dates in
     let tracking := set_column tracking date_col parsed in
     say (DateInput "Select Date Range:" (date_min parsed, date_max parsed)
                    (date_min parsed) (date_max parsed)) ;;
     let date_range := date_selection ui in
     ret tracking)%script
  else ret tracking.

(** One [if selection and col in influencers.columns] block. *)
Definition apply_filter (col : string) (selection : list value)
    (influencers filtered : DataFrame) : DataFrame :=
  match selection with
  | [] => filtered
  | _ :: _ =>
      if has_column influencers col then
        match index_of col (columns filtered) with
        | Some i => select_rows (isin selection) i filtered
        | None => filtered
        end
      else filtered
  end.

Definition filtered_influencers (influencers : DataFrame)
    (platform_filter category_filter : list value) : DataFrame :=
  let filtered := influencers in
  let filtered := apply_filter "platform" platform_filter influencers filtered in
  apply_filter "category" category_filter influencers filtered.

(** ** Join-aggregate pipeline: the data *)

(** [merged]: tracking left-joined with the influencers and, unless the
    post table is empty, with the posts. *)
Definition merged (tracking influencers posts : DataFrame) : result DataFrame :=
  (m <- merge tracking influencers "influencer_id" Left default_suffixes ;;
   if empty posts then Ok m
   else merge m posts "influencer_id" Left ("_tracking", "_post"))%result.

Definition fixed_cost_per_order : Q := 100.

(** [merged["orders"] * 100], one cell. *)
Definition cost (orders : cell) : cell :=
  match num_of orders with
  | Some o => of_num (o * fixed_cost_per_order)
  | None => None
  end.

(** [np.where(cost > 0, revenue / cost, 0)], one cell: a missing cost is
    not greater than 0. *)
Definition ROAS (revenue cost : cell) : cell :=
  match num_of cost with
  | Some c =>
      if negb (Qle_bool c 0) then
        match num_of revenue with
        | Some r => of_num (r / c)
        | None => None
        end
      else of_num 0
  | None => of_num 0
  end.

(** The two assignments [merged["cost"] = ...] and [merged["ROAS"] = ...]. *)
Definition roas_columns (merged : DataFrame) : result DataFrame :=
  (orders <- column merged "orders" ;;
   let merged := set_column merged "cost" (map cost orders) in
   c <- column merged "cost" ;;
   revenue <- column merged "revenue" ;;
   Ok (set_column merged "ROAS" (zip_with ROAS revenue c)))%result.

Definition roas_groupby (merged : DataFrame) : result DataFrame :=
  groupby_agg merged "influencer_id"
              [("ROAS", Mean); ("revenue", Sum); ("orders", Sum)].

Definition campaign_groupby (tracking : DataFrame) : result DataFrame :=
  groupby_agg tracking "influencer_id" [("orders", Sum); ("revenue", Sum)].

(** ["username" if "username" in influencers.columns else "name"], when one
    of the two exists. *)
Definition name_column (influencers : DataFrame) : option string :=
  if has_column influencers "username" then Some "username"
  else if has_column influencers "name" then Some "name"
  else None.

(** [summary.merge(influencers[["influencer_id", name_col]], on=..., how=h)] *)
Definition with_names (h : how) (summary influencers : DataFrame) (name_col : string)
  : result DataFrame :=
  (names <- project influencers ["influencer_id"; name_col] ;;
   merge summary names "influencer_id" h default_suffixes)%result.

(** The ROAS summary before it is sorted: grouped, then named with the
    default (inner) join when there is a name column. *)
Definition roas_named (merged influencers : DataFrame) : result DataFrame :=
  (summary <- roas_groupby merged ;;
   match name_column influencers with
   | Some c => with_names Inner summary influencers c
   | None => Ok summary
   end)%result.

(** The ROAS summary as the export section finds it. *)
Definition roas_table (srt : sorter) (merged influencers : DataFrame)
  : result DataFrame :=
  (summary <- roas_named merged influencers ;;
   sort_values srt summary "ROAS")%result.

(** The revenue and orders summary before it is sorted: grouped, then named
    with a left join. *)
Definition campaign_named (tracking influencers : DataFrame) : result DataFrame :=
  (summary <- campaign_groupby tracking ;;
   match name_column influencers with
   | Some c => with_names Left summary influencers c
   | None => Ok summary
   end)%result.

Definition campaign_table (srt : sorter) (tracking influencers : DataFrame)
  : result DataFrame :=
  (summary <- campaign_named tracking influencers ;;
   sort_values srt summary "revenue")%result.

(** [payouts[payouts["status"] == s]["total_payout"].sum()] *)
Definition status_amount (s : string) (payouts : DataFrame) : result Q :=
  match index_of "status" (columns payouts) with
  | Some i =>
      (amounts <- column (select_rows (eq_str s) i payouts) "total_payout" ;;
       Ok (sum amounts))%result
  | None => Raise (KeyError "status")
  end.

Definition pending_amount := status_amount "pending".
Definition paid_amount := status_amount "paid".

(** ** The page, section by section *)

Section Page.

Variable srt : sorter.
Variable parse : value -> option Z.

Definition column_total (df : DataFrame) (c : string) : option Q :=
  match column df c with
  | Ok cs => Some (sum cs)
  | Raise _ => None
  end.

Definition key_metrics (filtered tracking : DataFrame) : Script unit :=
  (say (Metric "Total Influencers" (Num (inject_Z (Z.of_nat (len filtered))))) ;;
   say (Metric "Total Reach"
               match column_total filtered "follower_count" with
               | Some total => Num total
               | None => Text "N/A"
               end) ;;
   say (Metric "Total Revenue"
               (Num match column_total tracking "revenue" with
                    | Some total => total
                    | None => 0
                    end)) ;;
   say (Metric "Total Orders"
               (Num match column_total tracking "orders" with
                    | Some total => total
                    | None => 0
                    end)))%script.

Definition top_influencers (filtered : DataFrame) : Script unit :=
  (say (Header "Top Influencers") ;;
   if has_column filtered "follower_count" then
     sorted <- lift (sort_values srt filtered "follower_count") ;;
     say (Cards (head 10 sorted))
   else say (Dataframe (head 10 filtered)))%script.

(** Lines 142-211.  Every assignment to [roas_summary] and [name_col] is a
    step of its own, so that an exception leaves the bindings made before
    it. *)
Definition performance_analysis (tracking influencers posts : DataFrame)
  : Script unit :=
  (say (Header "Campaign Performance Analysis") ;;
   try_except
     (merged <- lift (merged tracking influencers posts) ;;
      if has_column merged "revenue" && has_column merged "orders" then
        merged <- lift (roas_columns merged) ;;
        if negb (empty merged) then
          summary <- lift (roas_groupby merged) ;;
          set_roas_summary summary ;;
          summary <- match name_column influencers with
                     | Some c =>
                         set_name_col c ;;
                         named <- lift (with_names Inner summary influencers c) ;;
                         set_roas_summary named ;;
                         ret named
                     | None => ret summary
                     end ;;
          summary <- lift (sort_values srt summary "ROAS") ;;
          set_roas_summary summary ;;
          say (Subheader "Top Performing Campaigns (by ROAS)") ;;
          (if (0 <? len summary)%nat then
             c <- get_name_col ;;
             say (Chart "Top 10 Influencers by ROAS" (head 10 summary)
                        (if has_column summary c then c else "influencer_id"))
           else ret tt) ;;
          say (Dataframe (head 10 summary))
        else say (Warning "No data available for ROAS calculation")
      else say (Warning "Revenue or orders data not available for ROAS calculation"))
     (fun e => say (Error ("Error in performance analysis: " ++ str_exn e)%string)))%script.

(** Lines 213-258; no handler around this section. *)
Definition revenue_orders_summary (tracking influencers : DataFrame)
  : Script unit :=
  (say (Header "Revenue and Orders Summary") ;;
   if has_column tracking "revenue" && has_column tracking "orders" then
     summary <- lift (campaign_groupby tracking) ;;
     set_campaign_summary summary ;;
     summary <- match name_column influencers with
                | Some c =>
                    set_name_col c ;;
                    named <- lift (with_names Left summary influencers c) ;;
                    set_campaign_summary named ;;
                    ret named
                | None => ret summary
                end ;;
     summary <- lift (sort_values srt summary "revenue") ;;
     set_campaign_summary summary ;;
     (if (0 <? len summary)%nat then
        c <- get_name_col ;;
        say (Chart "Revenue Distribution (Top 10)" (head 10 summary)
                   (if has_column summary c then c else "influencer_id")) ;;
        c <- get_name_col ;;
        say (Chart "Orders by Influencer (Top 10)" (head 10 summary)
                   (if has_column summary c then c else "influencer_id"))
      else ret tt) ;;
     say (Dataframe (head 10 summary))
   else say (Warning "Revenue or orders data not available"))%script.

(** Lines 260-289. *)
Definition payout_tracking (payouts : DataFrame) : Script unit :=
  (say (Header "Payout Tracking") ;;
   if negb (empty payouts) then
     payout_summary <- lift (sort_values srt payouts "total_payout") ;;
     (if has_column payouts "status" then
        status <- lift (column payouts "status") ;;
        say (Chart "Payout Status Distribution" (value_counts srt "status" status)
                   "status") ;;
        pending <- lift (pending_amount payouts) ;;
        paid <- lift (paid_amount payouts) ;;
        say (Metric "Pending Payouts" (Num pending)) ;;
        say (Metric "Paid Amount" (Num paid))
      else ret tt) ;;
     say (Dataframe payout_summary)
   else say (Warning "No payout data available"))%script.

(** Lines 291-324. *)
Definition export (payouts : DataFrame) : Script unit :=
  (say (Header "Export Data") ;;
   bound <- locals roas_summary ;;
   match bound with
   | Some df =>
       if negb (empty df)
       then say (DownloadButton "Download ROAS Summary" df "roas_summary.csv")
       else ret tt
   | None => ret tt
   end ;;
   (if negb (empty payouts)
    then say (DownloadButton "Download Payouts" payouts "payouts.csv")
    else ret tt) ;;
   bound <- locals campaign_summary ;;
   match bound with
   | Some df =>
       if negb (empty df)
       then say (DownloadButton "Download Campaign Summary" df "campaign_summary.csv")
       else ret tt
   | None => ret tt
   end)%script.

Definition footer (ui : Session) : Script unit :=
  (say (Markdown "---") ;;
   say (Markdown ("*Dashboard last updated: " ++ now ui ++ "*")%string))%script.

(** What follows the two summaries of the tracking table. *)
Definition rest_of_page (ui : Session) (payouts : DataFrame) : Script unit :=
  (payout_tracking payouts ;;
   export payouts ;;
   footer ui)%script.

(** The page once the four tables are loaded (lines 38-328). *)
Definition page (ui : Session) (influencers posts tracking payouts : DataFrame)
  : Script unit :=
  (say (Title "HealthKart Influencer Campaign Dashboard") ;;
   say (Markdown "Track and analyze influencer campaign performance, ROI, and payouts") ;;
   say (SidebarHeader "Filter Options") ;;
   platform_filter <- multiselect_filter "Select Platforms:" "platform" influencers
                                         (platform_selection ui) ;;
   category_filter <- multiselect_filter "Select Categories:" "category" influencers
                                         (category_selection ui) ;;
   tracking <- date_filter parse ui tracking ;;
   let filtered := filtered_influencers influencers platform_filter category_filter in
   key_metrics filtered tracking ;;
   top_influencers filtered ;;
   performance_analysis tracking influencers posts ;;
   revenue_orders_summary tracking influencers ;;
   rest_of_page ui payouts)%script.

(** Lines 30-36: a load error is shown and the script stops. *)
Definition dashboard (fs : filesystem) (ui : Session) : Script unit :=
  let '(influencers, posts, tracking, payouts, error) := load_data fs in
  match error, influencers, posts, tracking, payouts with
  | Some e, _, _, _, _ =>
      (say (Error e) ;;
       say (Info "Please ensure all CSV files (influencers.csv, posts.csv, tracking_data.csv, payouts.csv) are in the same directory as this script.") ;;
       raise StopException)%script
  | None, Some influencers, Some posts, Some tracking, Some payouts =>
      page ui influencers posts tracking payouts
  | None, _, _, _, _ =>
      raise (OtherError "'NoneType' object has no attribute 'columns'")
  end.

End Page.

(** ** Vocabulary of the statements *)

(** A library call that can only fail with an ordinary [Exception]. *)
Definition raises_Exception {A} (r : result A) : Prop :=
  forall e, r = Raise e -> e <> StopException.

(** A piece of script that does not stop the page. *)
Definition never_stops {A} (m : Script A) : Prop :=
  forall s e s', m s = (Raise e, s') -> e <> StopException.

(** The state after some more output. *)
Definition after (st : State) (out : list output) : State :=
  mkState (printed st ++ out) (name_col st) (roas_summary st) (campaign_summary st).

(** What one filter block keeps of a table with the influencers' columns:
    every row, unless something is selected and the column exists. *)
Definition kept_by (col : string) (sel : list value) (infl : DataFrame) (r : row)
  : bool :=
  match sel, index_of col (columns infl) with
  | _ :: _, Some i => isin sel (get i r)
  | _, _ => true
  end.

(** How many rows of a table carry a given influencer_id (none when the
    table has no such column). *)
Definition matches (df : DataFrame) (key : cell) : nat :=
  match index_of "influencer_id" (columns df) with
  | Some k => List.length (filter (fun r => cell_eqb key (get k r)) (rows df))
  | None => 0
  end.

(** A piece of script that only adds to the page: whatever it returns or
    raises, what was printed before is still there, in front. *)
Definition appends {A} (m : Script A) : Prop :=
  forall s r s', m s = (r, s') -> exists out, printed s' = printed s ++ out.

(** A piece of script that leaves the ROAS summary as it found it. *)
Definition keeps_roas_summary {A} (m : Script A) : Prop :=
  forall s r s', m s = (r, s') -> roas_summary s' = roas_summary s.

(** The state with another page and the same variables. *)
Definition with_printed (p : list output) (s : State) : State :=
  mkState p (name_col s) (roas_summary s) (campaign_summary s).

(** A piece of script that does not look at the page: run after more
    output [p], it returns the same, binds the same and prints the same
    after [p]. *)
Definition framed {A} (m : Script A) : Prop :=
  forall s p,
    m (with_printed (p ++ printed s) s) =
    (fst (m s), with_printed (p ++ printed (snd (m s))) (snd (m s))).

(** A piece of script that binds no variable. *)
Definition only_prints {A} (m : Script A) : Prop :=
  forall s r s', m s = (r, s') -> s' = with_printed (printed s') s.

(** ** Concrete tables used by the examples *)

Module Examples.

Definition text (s : string) : cell := Some (VStr s).
Definition number (q : Q) : cell := Some (VNum q).

(** Substring test, to inspect messages. *)
Fixpoint contains (needle hay : string) : bool :=
  if String.prefix needle hay then true
  else match hay with
       | EmptyString => false
       | String _ hay' => contains needle hay'
       end.

Definition influencers : DataFrame :=
  mkDF ["influencer_id"; "username"; "platform"; "category"]
       [[text "inf1"; text "alice"; text "Instagram"; text "fitness"];
        [text "inf2"; text "bob"; text "YouTube"; text "nutrition"]].

Definition posts : DataFrame := mkDF ["influencer_id"; "url"] [].

(** The tracking scenario of the specification. *)
Definition tracking : DataFrame :=
  mkDF ["influencer_id"; "revenue"; "orders"]
       [[text "inf1"; number 500; number 5];
        [text "inf1"; number 300; number 0]].

(** The payout scenario of the specification. *)
Definition payouts : DataFrame :=
  mkDF ["status"; "total_payout"]
       [[text "pending"; number 1000];
        [text "paid"; number 2000];
        [text "Paid"; number 500]].

Definition disk (i p t y : file) : filesystem :=
  fun path =>
    if String.eqb path "influencers.csv" then i
    else if String.eqb path "posts.csv" then p
    else if String.eqb path "tracking_data.csv" then t
    else if String.eqb path "payouts.csv" then y
    else Absent.

Definition tokenizing_error : string :=
  "Error tokenizing data. C error: Expected 3 fields in line 5, saw 4".

(** Every file is fine except [posts.csv], which pandas cannot parse. *)
Definition malformed_posts : filesystem :=
  disk (Csv influencers) (Unreadable tokenizing_error) (Csv tracking) (Csv payouts).

(** A tracking table in which inf1 and inf2 reach the same mean ROAS and
    inf9 is unknown to the influencer table. *)
Definition campaigns : DataFrame :=
  mkDF ["influencer_id"; "revenue"; "orders"]
       [[text "inf1"; number 500; number 5];
        [text "inf1"; number 300; number 0];
        [text "inf2"; number 1000; number 20];
        [text "inf9"; number 200; number 1]].

Definition or_empty (r : result DataFrame) : DataFrame :=
  match r with
  | Ok df => df
  | Raise _ => mkDF [] []
  end.

Definition joined : DataFrame :=
  Eval vm_compute in or_empty (merged campaigns influencers posts).


(** [campaigns], joined, with cost and ROAS: inf1 and inf2 tie at 1/2. *)
Definition tied : DataFrame :=
  Eval vm_compute in or_empty (roas_columns joined).


Definition session : Session := mkSession [] [] [] "2026-01-01 00:00:00".

(** A date parser for the examples: an ISO date YYYY-MM-DD is read as the
    number YYYYMMDD, which orders dates chronologically; any other text is
    not a date. *)
Definition digit (a : ascii) : option Z :=
  let n := Z.of_nat (nat_of_ascii a) in
  if (48 <=? n)%Z && (n <=? 57)%Z then Some (n - 48)%Z else None.

Fixpoint digits (s : string) (acc : Z) : option Z :=
  match s with
  | EmptyString => Some acc
  | String a s' =>
      match digit a with
      | Some d => digits s' (10 * acc + d)%Z
      | None => None
      end
  end.

Definition parse_iso (s : string) : option Z :=
  if (String.length s =? 10)%nat
     && String.eqb (substring 4 1 s) "-" && String.eqb (substring 7 1 s) "-"
  then
    match digits (substring 0 4 s) 0, digits (substring 5 2 s) 0,
          digits (substring 8 2 s) 0 with
    | Some y, Some m, Some d =>
        if (1 <=? m)%Z && (m <=? 12)%Z && (1 <=? d)%Z && (d <=? 31)%Z
        then Some (y * 10000 + m * 100 + d)%Z
        else None
    | _, _, _ => None
    end
  else None.

Definition parse_date (v : value) : option Z :=
  match v with
  | VStr s => parse_iso s
  | VDate d => Some d
  | VNum _ => None
  end.

(** Tracking records of January and March 2024, and one whose date cannot
    be read. *)
Definition dated_tracking : DataFrame :=
  mkDF ["influencer_id"; "revenue"; "orders"; "date"]
       [[text "inf1"; number 100; number 1; text "2024-01-05"];
        [text "inf2"; number 900; number 9; text "2024-03-01"];
        [text "inf2"; number 50; number 1; text "soon"]].

Definition dated_disk : filesystem :=
  disk (Csv influencers) (Csv posts) (Csv dated_tracking) (Csv payouts).

(** The user picks January 2024 in the date widget. *)
Definition january : list Z := [20240101%Z; 20240131%Z].


(** An influencer table without a username or name column. *)
Definition anonymous : DataFrame :=
  mkDF ["influencer_id"; "platform"]
       [[text "inf1"; text "Instagram"]; [text "inf2"; text "YouTube"]].

(** A tracking table without the influencer_id column. *)
Definition unkeyed : DataFrame :=
  mkDF ["revenue"; "orders"] [[number 500; number 5]].


(** Two posts of inf1 and one of inf2. *)
Definition three_posts : DataFrame :=
  mkDF ["influencer_id"; "url"]
       [[text "inf1"; text "a"]; [text "inf1"; text "b"]; [text "inf2"; text "c"]].

End Examples.

(** * Properties *)

(** ** Facts about the library model *)

Lemma index_of_lt c cs i : index_of c cs = Some i -> (i < List.length cs)%nat.
Proof.
  revert i; induction cs as [|c' cs IH]; simpl; intros i H; [discriminate|].
  destruct (String.eqb c c').
  - injection H as <-. lia.
  - destruct (index_of c cs) as [j|]; simpl in H; [|discriminate].
    injection H as <-. specialize (IH j eq_refl). lia.
Qed.


Lemma has_column_index df c :
  has_column df c = true <-> exists i, index_of c (columns df) = Some i.
Proof.
  unfold has_column. destruct (index_of c (columns df)) as [i|]; split.
  - intros _. now exists i.
  - reflexivity.
  - discriminate.
  - intros [i H]. discriminate.
Qed.

Lemma value_eqb_refl v : value_eqb v v = true.
Proof.
  destruct v; simpl.
  - apply Qeq_bool_iff. reflexivity.
  - apply String.eqb_refl.
  - apply Z.eqb_refl.
Qed.

Lemma value_eqb_sym v w : value_eqb v w = value_eqb w v.
Proof.
  destruct v, w; simpl; try reflexivity.
  - apply Qeq_bool_comm.
  - apply String.eqb_sym.
  - apply Z.eqb_sym.
Qed.

Lemma value_eqb_trans u v w :
  value_eqb u v = true -> value_eqb v w = true -> value_eqb u w = true.
Proof.
  destruct u, v, w; simpl; try discriminate.
  - rewrite !Qeq_bool_iff. intros H1 H2. now rewrite H1.
  - rewrite !String.eqb_eq. congruence.
  - rewrite !Z.eqb_eq. congruence.
Qed.

(** ** The loader *)

(** C8, as the code has it.  The loader returns either the four tables and
    no error, exactly when the four paths hold readable tables, or no table
    and one message.  For a missing file the message is "File not found: "
    followed by the path of that file.  For a file that cannot be read the
    message is "Error loading data: " followed by the text of the
    underlying error, and nothing else: the path is not added. *)
Theorem load_data_all_or_nothing (fs : filesystem) :
  match load_data fs with
  | (Some i, Some p, Some t, Some y, None) =>
      fs "influencers.csv" = Csv i /\ fs "posts.csv" = Csv p /\
      fs "tracking_data.csv" = Csv t /\ fs "payouts.csv" = Csv y
  | (None, None, None, None, Some msg) =>
      exists path,
        In path ["influencers.csv"; "posts.csv"; "tracking_data.csv"; "payouts.csv"] /\
        ((fs path = Absent /\ msg = ("File not found: " ++ path)%string) \/
         (exists m, fs path = Unreadable m /\
                    msg = ("Error loading data: " ++ m)%string))
  | _ => False
  end.
Proof.
  unfold load_data, read_csv.
  destruct (fs "influencers.csv") as [|m|i] eqn:Ei; simpl.
  { exists "influencers.csv". split; [simpl; tauto | left; auto]. }
  { exists "influencers.csv". split; [simpl; tauto | right; eauto]. }
  destruct (fs "posts.csv") as [|m|p] eqn:Ep; simpl.
  { exists "posts.csv". split; [simpl; tauto | left; auto]. }
  { exists "posts.csv". split; [simpl; tauto | right; eauto]. }
  destruct (fs "tracking_data.csv") as [|m|t] eqn:Et; simpl.
  { exists "tracking_data.csv". split; [simpl; tauto | left; auto]. }
  { exists "tracking_data.csv". split; [simpl; tauto | right; eauto]. }
  destruct (fs "payouts.csv") as [|m|y] eqn:Ey; simpl.
  { exists "payouts.csv". split; [simpl; tauto | left; auto]. }
  { exists "payouts.csv". split; [simpl; tauto | right; eauto]. }
  auto.
Qed.

(** C8 as stated fails: [posts.csv] is malformed, and the one message the
    loader returns wraps the parser's text without the name of the file. *)
Lemma load_data_parse_error_omits_file_name :
  Examples.malformed_posts "posts.csv" = Unreadable Examples.tokenizing_error /\
  exists msg,
    load_data Examples.malformed_posts = (None, None, None, None, Some msg) /\
    Examples.contains "posts.csv" msg = false.
Proof.
  split; [reflexivity|].
  eexists. split; [reflexivity|]. vm_compute. reflexivity.
Qed.

(** ** The filter engine *)

Lemma apply_filter_columns col sel infl filt :
  columns (apply_filter col sel infl filt) = columns filt.
Proof.
  unfold apply_filter. destruct sel; [reflexivity|].
  destruct (has_column infl col); [|reflexivity].
  destruct (index_of col (columns filt)); reflexivity.
Qed.

Lemma apply_filter_rows col sel infl filt i :
  columns filt = columns infl ->
  index_of col (columns infl) = Some i ->
  rows (apply_filter col sel infl filt) =
  match sel with
  | [] => rows filt
  | _ :: _ => filter (fun r => isin sel (get i r)) (rows filt)
  end.
Proof.
  intros Hc Hi. unfold apply_filter, has_column. destruct sel; [reflexivity|].
  rewrite Hc, Hi. reflexivity.
Qed.

Lemma filtered_influencers_rows df ip ic P C :
  index_of "platform" (columns df) = Some ip ->
  index_of "category" (columns df) = Some ic ->
  forall r,
    In r (rows (filtered_influencers df P C)) <->
    In r (rows df) /\
    (P <> [] -> isin P (get ip r) = true) /\
    (C <> [] -> isin C (get ic r) = true).
Proof.
  intros Hp Hc r. unfold filtered_influencers.
  rewrite (apply_filter_rows "category" C df _ ic);
    [|apply apply_filter_columns|assumption].
  rewrite (apply_filter_rows "platform" P df df ip); [|reflexivity|assumption].
  destruct P as [|p P], C as [|c C]; rewrite ?filter_In.
  - intuition congruence.
  - intuition congruence.
  - intuition congruence.
  - intuition congruence.
Qed.

(** C2, as the code has it.  With the platform and category columns
    present, the filtered table keeps the columns, its rows are rows of the
    influencer table, and a row is kept exactly when its platform is among
    the selected platforms, if any platform is selected, and its category
    is among the selected categories, if any category is selected. *)
Theorem filtered_influencers_exact (df : DataFrame) (ip ic : nat)
    (P C : list value)
    (Hp : index_of "platform" (columns df) = Some ip)
    (Hc : index_of "category" (columns df) = Some ic) :
  columns (filtered_influencers df P C) = columns df /\
  incl (rows (filtered_influencers df P C)) (rows df) /\
  forall r,
    In r (rows (filtered_influencers df P C)) <->
    In r (rows df) /\
    (P <> [] -> isin P (get ip r) = true) /\
    (C <> [] -> isin C (get ic r) = true).
Proof.
  split; [|split].
  - unfold filtered_influencers. now rewrite !apply_filter_columns.
  - intros r Hr. now apply (filtered_influencers_rows df ip ic P C Hp Hc) in Hr.
  - now apply filtered_influencers_rows.
Qed.

Lemma filtered_influencers_exact_witness :
  columns (filtered_influencers Examples.influencers [VStr "YouTube"] []) =
  columns Examples.influencers /\
  incl (rows (filtered_influencers Examples.influencers [VStr "YouTube"] []))
       (rows Examples.influencers) /\
  forall r,
    In r (rows (filtered_influencers Examples.influencers [VStr "YouTube"] [])) <->
    In r (rows Examples.influencers) /\
    ([VStr "YouTube"] <> [] -> isin [VStr "YouTube"] (get 2 r) = true) /\
    (@nil value <> [] -> isin [] (get 3 r) = true).
Proof.
  apply (filtered_influencers_exact Examples.influencers 2 3); reflexivity.
Defined.

(** C2 as stated fails when a selection is empty: no platform is selected,
    yet the row of inf1 is in the filtered table although its platform is
    not in the (empty) selected set. *)
Lemma filtered_influencers_empty_selection_keeps_row :
  let r := [Examples.text "inf1"; Examples.text "alice";
            Examples.text "Instagram"; Examples.text "fitness"] in
  index_of "platform" (columns Examples.influencers) = Some 2%nat /\
  In r (rows (filtered_influencers Examples.influencers [] [VStr "fitness"])) /\
  isin [] (get 2 r) = false.
Proof.
  simpl. split; [reflexivity|]. split; [|reflexivity].
  vm_compute. left. reflexivity.
Qed.

(** C9.  An empty selection for a column removes no row on account of that
    column: with no platform selected, every row whose category passes (or
    for which no category is selected) is kept whatever its platform, and
    symmetrically; with both selections empty the table is returned as it
    is. *)
Theorem empty_selection_filters_nothing (df : DataFrame) (r : row)
    (Hr : In r (rows df)) :
  (forall C ic, index_of "category" (columns df) = Some ic ->
                C = [] \/ isin C (get ic r) = true ->
                In r (rows (filtered_influencers df [] C))) /\
  (forall P ip, index_of "platform" (columns df) = Some ip ->
                P = [] \/ isin P (get ip r) = true ->
                In r (rows (filtered_influencers df P []))) /\
  filtered_influencers df [] [] = df.
Proof.
  split; [|split].
  - intros C ic Hc Hk. unfold filtered_influencers.
    rewrite (apply_filter_rows "category" C df _ ic); [|reflexivity|assumption].
    simpl. destruct C as [|c C]; [assumption|].
    apply filter_In. split; [assumption|].
    destruct Hk as [Hk|Hk]; [discriminate|assumption].
  - intros P ip Hp Hk. unfold filtered_influencers. simpl.
    rewrite (apply_filter_rows "platform" P df df ip); [|reflexivity|assumption].
    destruct P as [|p P]; [assumption|].
    apply filter_In. split; [assumption|].
    destruct Hk as [Hk|Hk]; [discriminate|assumption].
  - reflexivity.
Qed.

Lemma empty_selection_filters_nothing_witness :
  let r := [Examples.text "inf2"; Examples.text "bob";
            Examples.text "YouTube"; Examples.text "nutrition"] in
  (forall C ic, index_of "category" (columns Examples.influencers) = Some ic ->
                C = [] \/ isin C (get ic r) = true ->
                In r (rows (filtered_influencers Examples.influencers [] C))) /\
  (forall P ip, index_of "platform" (columns Examples.influencers) = Some ip ->
                P = [] \/ isin P (get ip r) = true ->
                In r (rows (filtered_influencers Examples.influencers P []))) /\
  filtered_influencers Examples.influencers [] [] = Examples.influencers.
Proof.
  apply (empty_selection_filters_nothing Examples.influencers).
  simpl. right. left. reflexivity.
Defined.

(** ** Payout status sums *)

Lemma eq_str_exact s c : eq_str s c = true <-> c = Some (VStr s).
Proof.
  destruct c as [[q|t|d]|]; simpl; try (split; [discriminate | congruence]).
  rewrite String.eqb_eq. split; congruence.
Qed.

Lemma status_amount_sum s payouts js jt :
  index_of "status" (columns payouts) = Some js ->
  index_of "total_payout" (columns payouts) = Some jt ->
  status_amount s payouts =
  Ok (sum (map (get jt) (filter (fun r => eq_str s (get js r)) (rows payouts)))).
Proof.
  intros Hs Ht. unfold status_amount, column. rewrite Hs. simpl.
  rewrite Ht. reflexivity.
Qed.

Lemma status_amount_skips s payouts js jt pre r post :
  index_of "status" (columns payouts) = Some js ->
  index_of "total_payout" (columns payouts) = Some jt ->
  rows payouts = pre ++ r :: post ->
  get js r <> Some (VStr s) ->
  status_amount s payouts = status_amount s (mkDF (columns payouts) (pre ++ post)).
Proof.
  intros Hs Ht Hr Hne.
  rewrite (status_amount_sum s payouts js jt Hs Ht).
  rewrite (status_amount_sum s (mkDF (columns payouts) (pre ++ post)) js jt Hs Ht).
  simpl. rewrite Hr, !filter_app. simpl.
  destruct (eq_str s (get js r)) eqn:E; [|reflexivity].
  apply eq_str_exact in E. contradiction.
Qed.

(** C6.  With the status and total_payout columns present, the pending sum
    is the sum of total_payout over the rows whose status is exactly the
    text "pending", and the paid sum over those whose status is exactly
    "paid"; a row with any other status can be removed without changing
    either sum.  On the three payouts of the scenario the sums are 1000 and
    2000, and these are the two amounts the payout section shows. *)
Theorem payout_status_sums (payouts : DataFrame) (js jt : nat)
    (Hs : index_of "status" (columns payouts) = Some js)
    (Ht : index_of "total_payout" (columns payouts) = Some jt) :
  pending_amount payouts =
    Ok (sum (map (get jt)
                 (filter (fun r => eq_str "pending" (get js r)) (rows payouts)))) /\
  paid_amount payouts =
    Ok (sum (map (get jt)
                 (filter (fun r => eq_str "paid" (get js r)) (rows payouts)))) /\
  (forall s c, eq_str s c = true <-> c = Some (VStr s)) /\
  (forall pre r post,
      rows payouts = pre ++ r :: post ->
      get js r <> Some (VStr "pending") ->
      get js r <> Some (VStr "paid") ->
      pending_amount payouts = pending_amount (mkDF (columns payouts) (pre ++ post)) /\
      paid_amount payouts = paid_amount (mkDF (columns payouts) (pre ++ post))) /\
  pending_amount Examples.payouts = Ok 1000%Q /\
  paid_amount Examples.payouts = Ok 2000%Q /\
  (forall srt st,
      exists chart table,
        payout_tracking srt Examples.payouts st =
        (Ok tt, after st [Header "Payout Tracking"; chart;
                          Metric "Pending Payouts" (Num 1000);
                          Metric "Paid Amount" (Num 2000); table])).
Proof.
  unfold pending_amount, paid_amount.
  repeat split; try (intros srt st; do 2 eexists;
                     unfold payout_tracking, bind, lift, say, ret, after;
                     cbn; rewrite <- !app_assoc; reflexivity).
  - now apply status_amount_sum.
  - now apply status_amount_sum.
  - now apply eq_str_exact.
  - apply eq_str_exact.
  - now apply (status_amount_skips "pending" payouts js jt pre r post).
  - now apply (status_amount_skips "paid" payouts js jt pre r post).
Qed.

Lemma payout_status_sums_witness :
  pending_amount Examples.payouts =
    Ok (sum (map (get 1)
                 (filter (fun r => eq_str "pending" (get 0 r))
                         (rows Examples.payouts)))) /\
  paid_amount Examples.payouts =
    Ok (sum (map (get 1)
                 (filter (fun r => eq_str "paid" (get 0 r))
                         (rows Examples.payouts)))) /\
  (forall s c, eq_str s c = true <-> c = Some (VStr s)) /\
  (forall pre r post,
      rows Examples.payouts = pre ++ r :: post ->
      get 0 r <> Some (VStr "pending") ->
      get 0 r <> Some (VStr "paid") ->
      pending_amount Examples.payouts =
        pending_amount (mkDF (columns Examples.payouts) (pre ++ post)) /\
      paid_amount Examples.payouts =
        paid_amount (mkDF (columns Examples.payouts) (pre ++ post))) /\
  pending_amount Examples.payouts = Ok 1000%Q /\
  paid_amount Examples.payouts = Ok 2000%Q /\
  (forall srt st,
      exists chart table,
        payout_tracking srt Examples.payouts st =
        (Ok tt, after st [Header "Payout Tracking"; chart;
                          Metric "Pending Payouts" (Num 1000);
                          Metric "Paid Amount" (Num 2000); table])).
Proof.
  apply (payout_status_sums Examples.payouts 0 1); reflexivity.
Defined.

(** ** The joins *)


Lemma get_app_l i (r s : row) : (i < List.length r)%nat -> get i (r ++ s) = get i r.
Proof. intros H. unfold get. now apply app_nth1. Qed.



(** The rows a join makes out of one left row. *)
Lemma join_row_inv h kl kr w rrows lr r :
  In r (join_row h kl kr w rrows lr) ->
  (h = Left /\ r = lr ++ repeat None w /\
   forall rr, In rr rrows -> cell_eqb (get kl lr) (get kr rr) = false) \/
  (exists rr, In rr rrows /\ cell_eqb (get kl lr) (get kr rr) = true /\
              r = lr ++ drop_nth kr rr).
Proof.
  unfold join_row.
  destruct (filter _ rrows) as [|m ms] eqn:F.
  - destruct h; simpl; [|contradiction].
    intros [<-|[]]. left. split; [reflexivity|]. split; [reflexivity|].
    intros rr Hrr. destruct (cell_eqb (get kl lr) (get kr rr)) eqn:E; [|reflexivity].
    assert (In rr (filter (fun rr => cell_eqb (get kl lr) (get kr rr)) rrows))
      as Hin by (apply filter_In; auto).
    rewrite F in Hin. contradiction.
  - rewrite <- F. intros Hin. apply in_map_iff in Hin as [rr [<- Hrr]].
    apply filter_In in Hrr as [Hrr E]. right. now exists rr.
Qed.








(** ** Cost and ROAS *)



















(** ** Sorting *)

Lemma desc_trans a b c : desc a b -> desc b c -> desc a c.
Proof.
  destruct a as [x|], b as [y|], c as [z|]; simpl; try tauto.
  intros H1 H2. now apply Qle_trans with y.
Qed.

Section InsertionSorts.

Variable strict : bool.
Variable key : row -> option Q.

Let before (a b : row) : Prop := desc (key a) (key b).

Lemma desc_b_true a b : desc_b strict a b = true -> desc a b.
Proof.
  destruct a as [x|], b as [y|]; simpl; try tauto; try discriminate.
  destruct strict.
  - intros H. apply negb_true_iff in H.
    apply Qlt_le_weak, Qnot_le_lt. intros Hle.
    apply Qle_bool_iff in Hle. congruence.
  - apply Qle_bool_iff.
Qed.

Lemma desc_b_false a b : desc_b strict a b = false -> desc b a.
Proof.
  destruct a as [x|], b as [y|]; simpl; try tauto; try discriminate.
  destruct strict.
  - intros H. apply negb_false_iff in H. now apply Qle_bool_iff.
  - intros H. apply Qlt_le_weak, Qnot_le_lt. intros Hle.
    apply Qle_bool_iff in Hle. congruence.
Qed.

Lemma insert_by_perm r rs : Permutation (insert_by strict key r rs) (r :: rs).
Proof.
  induction rs as [|r' rs IH]; simpl; [reflexivity|].
  destruct (desc_b strict (key r') (key r)); [|reflexivity].
  rewrite IH. apply perm_swap.
Qed.

Lemma insert_by_sorted r rs :
  StronglySorted before rs -> StronglySorted before (insert_by strict key r rs).
Proof.
  induction 1 as [|r' rs Hs IH Hall]; simpl.
  - constructor; constructor.
  - destruct (desc_b strict (key r') (key r)) eqn:E.
    + constructor; [assumption|].
      rewrite Forall_forall in *. intros x Hx.
      apply (Permutation_in _ (insert_by_perm r rs)) in Hx as [<-|Hx].
      * now apply desc_b_true.
      * now apply Hall.
    + apply desc_b_false in E.
      constructor; [constructor; assumption|].
      constructor; [exact E|].
      rewrite Forall_forall in *. intros x Hx.
      apply desc_trans with (key r'); [exact E|now apply Hall].
Qed.

Lemma insertion_sort_perm rs acc :
  Permutation (fold_left (fun acc r => insert_by strict key r acc) rs acc) (acc ++ rs).
Proof.
  revert acc; induction rs as [|r rs IH]; intros acc; simpl.
  - now rewrite app_nil_r.
  - rewrite IH, insert_by_perm. apply Permutation_middle.
Qed.

Lemma insertion_sort_sorted rs acc :
  StronglySorted before acc ->
  StronglySorted before (fold_left (fun acc r => insert_by strict key r acc) rs acc).
Proof.
  revert acc; induction rs as [|r rs IH]; intros acc H; simpl; [assumption|].
  apply IH. now apply insert_by_sorted.
Qed.

End InsertionSorts.

Lemma stable_sort_ok : sorter_ok stable_sort.
Proof.
  split; intros key rs; unfold stable_sort.
  - apply (insertion_sort_perm false key rs []).
  - apply insertion_sort_sorted. constructor.
Qed.


(** ** Grouping *)

Lemma cell_eqb_sym a b : cell_eqb a b = cell_eqb b a.
Proof. destruct a, b; simpl; auto using value_eqb_sym. Qed.


Lemma insert_key_keeps v k ks : In k ks -> In k (insert_key v ks).
Proof.
  induction ks as [|k' ks IH]; simpl; [tauto|].
  intros H. destruct (value_eqb v k'); [assumption|].
  destruct (value_ltb v k'); [now right|].
  destruct H as [->|H]; [now left|right; auto].
Qed.

Lemma insert_key_has v ks :
  exists k, In k (insert_key v ks) /\ value_eqb v k = true.
Proof.
  induction ks as [|k' ks (k & Hk & E)]; simpl.
  - exists v. split; [now left|apply value_eqb_refl].
  - destruct (value_eqb v k') eqn:E'.
    + exists k'. split; [now left|assumption].
    + destruct (value_ltb v k').
      * exists v. split; [now left|apply value_eqb_refl].
      * exists k. split; [now right|assumption].
Qed.

Lemma group_keys_complete v cs :
  In (Some v) cs -> exists k, In k (group_keys cs) /\ value_eqb v k = true.
Proof.
  unfold group_keys. generalize (@nil value) as acc.
  induction cs as [|c cs IH]; simpl; [tauto|].
  intros acc [->|H]; [|now apply IH].
  destruct (insert_key_has v acc) as (k & Hk & E).
  exists k. split; [|assumption].
  clear IH E. revert Hk. generalize (insert_key v acc) as acc'.
  induction cs as [|c cs IH]; simpl; intros acc' Hk; [assumption|].
  apply IH. destruct c; [now apply insert_key_keeps|assumption].
Qed.

Lemma groupby_agg_inv df by_ spec g :
  groupby_agg df by_ spec = Ok g ->
  exists k ix,
    index_of by_ (columns df) = Some k /\
    indices (map fst spec) (columns df) = Ok ix /\
    columns g = by_ :: map fst spec /\
    rows g =
    map (fun v =>
           Some v ::
           zip_with (fun i f => agg f (map (get i) (group_rows k v (rows df))))
                    ix (map snd spec))
        (group_keys (map (get k) (rows df))).
Proof.
  unfold groupby_agg.
  destruct (index_of by_ (columns df)) as [k|]; [|discriminate].
  destruct (indices (map fst spec) (columns df)) as [ix|]; simpl; [|discriminate].
  intros [= <-]. now exists k, ix.
Qed.


(** ** Attaching names *)






(** ** The two summaries, step by step *)

Lemma roas_groupby_total m :
  has_column m "influencer_id" = true -> has_column m "ROAS" = true ->
  has_column m "revenue" = true -> has_column m "orders" = true ->
  exists g, roas_groupby m = Ok g /\
            columns g = ["influencer_id"; "ROAS"; "revenue"; "orders"].
Proof.
  unfold has_column, roas_groupby, groupby_agg, indices. simpl.
  destruct (index_of "influencer_id" (columns m)); [|discriminate].
  destruct (index_of "ROAS" (columns m)); [|discriminate].
  destruct (index_of "revenue" (columns m)); [|discriminate].
  destruct (index_of "orders" (columns m)); [|discriminate].
  intros _ _ _ _. simpl. eexists. split; reflexivity.
Qed.

Lemma campaign_groupby_total tracking kt :
  index_of "influencer_id" (columns tracking) = Some kt ->
  has_column tracking "revenue" = true -> has_column tracking "orders" = true ->
  exists g ko kr,
    campaign_groupby tracking = Ok g /\
    columns g = ["influencer_id"; "orders"; "revenue"] /\
    rows g =
      map (fun v => [Some v;
                     agg Sum (map (get ko) (group_rows kt v (rows tracking)));
                     agg Sum (map (get kr) (group_rows kt v (rows tracking)))])
          (group_keys (map (get kt) (rows tracking))).
Proof.
  unfold has_column, campaign_groupby, groupby_agg, indices. simpl.
  intros ->.
  destruct (index_of "orders" (columns tracking)) as [ko|]; [|discriminate].
  destruct (index_of "revenue" (columns tracking)) as [kr|]; [|discriminate].
  intros _ _. simpl. eexists. exists ko, kr. repeat split.
Qed.



(** ** The sections of the page *)










(** ** Order and truncation of the ROAS summary *)




(** ** Missing columns and empty tables *)

Lemma rbind_raises {A B} (m : result A) (k : A -> result B) :
  raises_Exception m -> (forall a, raises_Exception (k a)) ->
  raises_Exception (rbind m k).
Proof.
  intros Hm Hk e. destruct m as [a|e']; simpl.
  - apply Hk.
  - intros [= <-]. now apply Hm.
Qed.

Lemma Ok_raises {A} (a : A) : raises_Exception (Ok a).
Proof. intros e H. discriminate. Qed.

Lemma KeyError_raises {A} k : raises_Exception (@Raise A (KeyError k)).
Proof. intros e [= <-]. discriminate. Qed.

Lemma column_raises df c : raises_Exception (column df c).
Proof.
  unfold column. destruct (index_of c (columns df));
    [apply Ok_raises|apply KeyError_raises].
Qed.

Lemma indices_raises cs cols : raises_Exception (indices cs cols).
Proof.
  induction cs as [|c cs IH]; simpl; [apply Ok_raises|].
  destruct (index_of c cols); [|apply KeyError_raises].
  apply rbind_raises; [assumption|]. intros a. apply Ok_raises.
Qed.

Lemma merge_raises l r on h sfx : raises_Exception (merge l r on h sfx).
Proof.
  unfold merge. destruct (index_of on (columns l)); [|apply KeyError_raises].
  destruct (index_of on (columns r)); [apply Ok_raises|apply KeyError_raises].
Qed.

Lemma merged_raises t i p : raises_Exception (merged t i p).
Proof.
  unfold merged. apply rbind_raises; [apply merge_raises|].
  intros m. destruct (empty p); [apply Ok_raises|apply merge_raises].
Qed.

Lemma roas_columns_raises m : raises_Exception (roas_columns m).
Proof.
  unfold roas_columns.
  apply rbind_raises; [apply column_raises|intros orders].
  apply rbind_raises; [apply column_raises|intros c].
  apply rbind_raises; [apply column_raises|intros revenue]. apply Ok_raises.
Qed.

Lemma groupby_agg_raises df by_ spec : raises_Exception (groupby_agg df by_ spec).
Proof.
  unfold groupby_agg. destruct (index_of by_ (columns df)); [|apply KeyError_raises].
  apply rbind_raises; [apply indices_raises|]. intros a. apply Ok_raises.
Qed.

Lemma with_names_raises h summary influencers c :
  raises_Exception (with_names h summary influencers c).
Proof.
  unfold with_names, project.
  apply rbind_raises; [|intros names; apply merge_raises].
  apply rbind_raises; [apply indices_raises|]. intros a. apply Ok_raises.
Qed.

Lemma sort_values_raises srt df by_ : raises_Exception (sort_values srt df by_).
Proof.
  unfold sort_values. destruct (index_of by_ (columns df));
    [apply Ok_raises|apply KeyError_raises].
Qed.

Create HintDb pandas.
#[local] Hint Resolve Ok_raises KeyError_raises column_raises indices_raises
  merge_raises merged_raises roas_columns_raises groupby_agg_raises
  with_names_raises sort_values_raises : pandas.

Lemma never_stops_bind {A B} (m : Script A) (k : A -> Script B) :
  never_stops m -> (forall a, never_stops (k a)) -> never_stops (bind m k).
Proof.
  intros Hm Hk s e s'. unfold bind.
  destruct (m s) as [[a|e'] s1] eqn:E.
  - apply Hk.
  - intros [= <- <-]. now apply (Hm s e' s1).
Qed.

Lemma never_stops_ret {A} (a : A) : never_stops (ret a).
Proof. intros s e s' H. discriminate. Qed.

Lemma never_stops_say o : never_stops (say o).
Proof. intros s e s' H. discriminate. Qed.

Lemma never_stops_lift {A} (r : result A) : raises_Exception r -> never_stops (lift r).
Proof. intros Hr s e s' [= -> _]. now apply Hr. Qed.

Lemma never_stops_set_name_col c : never_stops (set_name_col c).
Proof. intros s e s' H. discriminate. Qed.

Lemma never_stops_set_roas_summary df : never_stops (set_roas_summary df).
Proof. intros s e s' H. discriminate. Qed.

Lemma never_stops_get_name_col : never_stops get_name_col.
Proof.
  intros s e s'. unfold get_name_col. destruct (name_col s); [discriminate|].
  intros [= <- _]. discriminate.
Qed.

Ltac never_stops :=
  repeat first
    [ apply never_stops_ret
    | apply never_stops_say
    | apply never_stops_set_name_col
    | apply never_stops_set_roas_summary
    | apply never_stops_get_name_col
    | apply never_stops_lift; unfold roas_groupby; auto with pandas
    | apply never_stops_bind; [|intros ?]
    | match goal with
      | |- never_stops (if ?b then _ else _) => destruct b
      | |- never_stops (match ?x with _ => _ end) => destruct x
      end ].













(** ** The date range *)

(** Nothing on the page depends on the dates the user picks. *)
Lemma date_selection_unused srt parse fs P C clock sel sel' :
  dashboard srt parse fs (mkSession P C sel clock) initial =
  dashboard srt parse fs (mkSession P C sel' clock) initial.
Proof.
  unfold dashboard, page, date_filter, footer.
  cbn [date_selection platform_selection category_selection now].
  reflexivity.
Qed.

(** C3, the code at a failing input.  The tracking table has a record of
    5 January 2024, one of 1 March 2024 and one with an unreadable date; the
    user selects January 2024.  The date widget is offered the range from
    the smallest to the largest readable date, the unreadable one being
    skipped.  But the page is the same whatever range is selected, and the
    totals still count the records outside the selected range: revenue 1050
    and 11 orders, not 100 and 1. *)
Theorem date_range_not_applied (sel : list Z) :
  let run dates :=
    dashboard stable_sort Examples.parse_date Examples.dated_disk
              (mkSession [] [] dates "2026-01-01 00:00:00") initial in
  run sel = run Examples.january /\
  fst (run Examples.january) = Ok tt /\
  nth_error (printed (snd (run Examples.january))) 5 =
    Some (DateInput "Select Date Range:" (Some 20240105%Z, Some 20240301%Z)
                    (Some 20240105%Z) (Some 20240301%Z)) /\
  nth_error (printed (snd (run Examples.january))) 8 =
    Some (Metric "Total Revenue" (Num 1050)) /\
  nth_error (printed (snd (run Examples.january))) 9 =
    Some (Metric "Total Orders" (Num 11)).
Proof.
  cbv zeta. split; [apply date_selection_unused|].
  repeat split; vm_compute; reflexivity.
Qed.

(** * Further properties of the script *)

(** ** Loading and the load gate *)

Lemma read_csv_Ok fs path df : read_csv fs path = Ok df <-> fs path = Csv df.
Proof.
  unfold read_csv. destruct (fs path); split; intros H; try discriminate; congruence.
Qed.

(** X1.  The files are read in the order influencers, posts, tracking,
    payouts, and the message is about the first one that cannot be read:
    when the files before it are readable tables, a missing file gives
    "File not found: " and its path, an unreadable one "Error loading
    data: " and the text of its error, whatever the state of the files
    after it. *)
Theorem load_data_first_failure (fs : filesystem) (before later : list string)
    (path : string)
    (Horder : ["influencers.csv"; "posts.csv"; "tracking_data.csv"; "payouts.csv"]
              = before ++ path :: later)
    (Hbefore : forall p, In p before -> exists df, fs p = Csv df) :
  (fs path = Absent ->
   load_data fs = (None, None, None, None, Some ("File not found: " ++ path)%string)) /\
  (forall m, fs path = Unreadable m ->
   load_data fs = (None, None, None, None, Some ("Error loading data: " ++ m)%string)).
Proof.
  assert (Hread : forall p, In p before -> exists df, read_csv fs p = Ok df).
  { intros p Hp. destruct (Hbefore p Hp) as [df Hdf]. exists df.
    now apply read_csv_Ok. }
  destruct before as [|b1 [|b2 [|b3 [|b4 before]]]]; simpl in Horder;
    injection Horder as <-; try subst.
  - split; [intros H|intros m H]; unfold load_data, read_csv; now rewrite H.
  - destruct (Hread "influencers.csv") as [i Hi]; [now left|].
    split; [intros H|intros m H]; unfold load_data; rewrite Hi;
      unfold read_csv; simpl; now rewrite H.
  - destruct (Hread "influencers.csv") as [i Hi]; [now left|].
    destruct (Hread "posts.csv") as [p Hp]; [right; now left|].
    split; [intros H|intros m H]; unfold load_data; rewrite Hi, Hp;
      unfold read_csv; simpl; now rewrite H.
  - destruct (Hread "influencers.csv") as [i Hi]; [now left|].
    destruct (Hread "posts.csv") as [p Hp]; [right; now left|].
    destruct (Hread "tracking_data.csv") as [t Ht]; [right; right; now left|].
    split; [intros H|intros m H]; unfold load_data; rewrite Hi, Hp, Ht;
      unfold read_csv; simpl; now rewrite H.
  - destruct before; discriminate.
Qed.

Lemma load_data_first_failure_witness :
  (Examples.malformed_posts "posts.csv" = Absent ->
   load_data Examples.malformed_posts
   = (None, None, None, None, Some "File not found: posts.csv")) /\
  (forall m, Examples.malformed_posts "posts.csv" = Unreadable m ->
   load_data Examples.malformed_posts
   = (None, None, None, None, Some ("Error loading data: " ++ m)%string)).
Proof.
  apply (load_data_first_failure Examples.malformed_posts ["influencers.csv"]
           ["tracking_data.csv"; "payouts.csv"] "posts.csv").
  - reflexivity.
  - intros p [<-|[]]. eexists. reflexivity.
Defined.

(** X2.  The load gate of the page.  If one of the four paths holds no
    readable table, the page consists of the error message and the hint
    about the four files, then the script stops: no title, no widget and no
    section is shown, and no variable is bound.  If the four paths hold
    tables, the script goes on with the page built from these tables. *)
Theorem dashboard_load_gate (srt : sorter) (parse : value -> option Z)
    (fs : filesystem) (ui : Session) :
  (forall path,
      In path ["influencers.csv"; "posts.csv"; "tracking_data.csv"; "payouts.csv"] ->
      (forall df, fs path <> Csv df) ->
      exists msg,
        dashboard srt parse fs ui initial =
        (Raise StopException,
         after initial
           [Error msg;
            Info "Please ensure all CSV files (influencers.csv, posts.csv, tracking_data.csv, payouts.csv) are in the same directory as this script."])) /\
  (forall i p t y,
      fs "influencers.csv" = Csv i -> fs "posts.csv" = Csv p ->
      fs "tracking_data.csv" = Csv t -> fs "payouts.csv" = Csv y ->
      dashboard srt parse fs ui initial = page srt parse ui i p t y initial).
Proof.
  split.
  - intros path Hpath Hbad. unfold dashboard, load_data, read_csv.
    destruct (fs "influencers.csv") as [|m|i] eqn:Ei; simpl;
      try (eexists; reflexivity).
    destruct (fs "posts.csv") as [|m|p] eqn:Ep; simpl; try (eexists; reflexivity).
    destruct (fs "tracking_data.csv") as [|m|t] eqn:Et; simpl;
      try (eexists; reflexivity).
    destruct (fs "payouts.csv") as [|m|y] eqn:Ey; simpl; try (eexists; reflexivity).
    exfalso. simpl in Hpath.
    destruct Hpath as [<-|[<-|[<-|[<-|[]]]]]; eapply Hbad; eassumption.
  - intros i p t y Hi Hp Ht Hy. unfold dashboard, load_data, read_csv.
    rewrite Hi. simpl. rewrite Hp. simpl. rewrite Ht. simpl. rewrite Hy. reflexivity.
Qed.

(** ** Filters and their widgets *)

Lemma DataFrame_ext a b : columns a = columns b -> rows a = rows b -> a = b.
Proof. destruct a, b. simpl. congruence. Qed.

Lemma filter_true {A} (l : list A) : filter (fun _ => true) l = l.
Proof. induction l as [|a l IH]; simpl; congruence. Qed.

Lemma apply_filter_as_filter col sel infl filt :
  columns filt = columns infl ->
  rows (apply_filter col sel infl filt) = filter (kept_by col sel infl) (rows filt).
Proof.
  intros Hc. unfold apply_filter, has_column, select_rows, kept_by. rewrite Hc.
  destruct sel as [|v sel]; [now rewrite filter_true|].
  destruct (index_of col (columns infl)) as [i|]; [reflexivity|].
  now rewrite filter_true.
Qed.

Lemma filter_comm {A} (p q : A -> bool) l :
  filter p (filter q l) = filter q (filter p l).
Proof.
  induction l as [|a l IH]; simpl; [reflexivity|].
  destruct (p a) eqn:P, (q a) eqn:Q0; simpl; rewrite ?P, ?Q0, IH; reflexivity.
Qed.

Lemma filter_twice {A} (p q : A -> bool) l :
  filter p (filter q (filter p (filter q l))) = filter p (filter q l).
Proof.
  induction l as [|a l IH]; simpl; [reflexivity|].
  destruct (q a) eqn:Q0; simpl; [|assumption].
  destruct (p a) eqn:P; simpl; [|assumption].
  rewrite Q0. simpl. rewrite P. now rewrite IH.
Qed.

Lemma filter_filter {A} (p q : A -> bool) l :
  filter p (filter q l) = filter (fun a => q a && p a) l.
Proof.
  induction l as [|a l IH]; simpl; [reflexivity|].
  destruct (q a); simpl; [destruct (p a)|]; now rewrite IH.
Qed.

Lemma filtered_influencers_as_filter df P C :
  columns (filtered_influencers df P C) = columns df /\
  rows (filtered_influencers df P C) =
  filter (kept_by "category" C df) (filter (kept_by "platform" P df) (rows df)).
Proof.
  unfold filtered_influencers. split.
  - now rewrite !apply_filter_columns.
  - rewrite apply_filter_as_filter by apply apply_filter_columns.
    now rewrite apply_filter_as_filter.
Qed.

(** X3.  The two filter blocks compose well: filtering an already
    filtered table with the same selections changes nothing, the result
    does not depend on which of the two blocks runs first, the filtered
    table never has more rows than the influencer table, and its rows come
    in the order of the influencer table. *)
Theorem filtered_influencers_compose (df : DataFrame) (P C : list value) :
  filtered_influencers (filtered_influencers df P C) P C = filtered_influencers df P C /\
  filtered_influencers df P C =
    apply_filter "platform" P df (apply_filter "category" C df df) /\
  (len (filtered_influencers df P C) <= len df)%nat /\
  exists keep, rows (filtered_influencers df P C) = filter keep (rows df).
Proof.
  destruct (filtered_influencers_as_filter df P C) as [Hc Hr].
  split; [|split; [|split]].
  - destruct (filtered_influencers_as_filter (filtered_influencers df P C) P C)
      as [Hc' Hr'].
    apply DataFrame_ext; [assumption|]. rewrite Hr'. unfold kept_by.
    rewrite Hc. fold (kept_by "platform" P df). fold (kept_by "category" C df).
    rewrite Hr. apply filter_twice.
  - apply DataFrame_ext.
    + now rewrite Hc, !apply_filter_columns.
    + rewrite Hr. rewrite apply_filter_as_filter by apply apply_filter_columns.
      rewrite apply_filter_as_filter by reflexivity. apply filter_comm.
  - unfold len. rewrite Hr.
    etransitivity; [apply filter_length_le|apply filter_length_le].
  - eexists. rewrite Hr. apply filter_filter.
Qed.

Lemma ForallOrdPairs_filter {A} (R : A -> A -> Prop) (p : A -> bool) l :
  ForallOrdPairs R l -> ForallOrdPairs R (filter p l).
Proof.
  induction 1 as [|a l Ha Hl IH]; simpl; [constructor|].
  destruct (p a); [|assumption].
  constructor; [|assumption].
  rewrite Forall_forall in *. intros x Hx. apply filter_In in Hx. now apply Ha.
Qed.

(** [dropna().unique()]: the distinct values of a column that are not
    missing. *)
Lemma unique_spec cs :
  (forall v, In v (unique cs) -> In (Some v) cs) /\
  (forall v, In (Some v) cs -> exists w, In w (unique cs) /\ value_eqb v w = true) /\
  ForallOrdPairs (fun a b => value_eqb a b = false) (unique cs).
Proof.
  induction cs as [|[u|] cs (IH1 & IH2 & IH3)]; simpl.
  - split; [tauto|]. split; [tauto|constructor].
  - split; [|split].
    + intros v [<-|Hv]; [now left|]. right. apply filter_In in Hv. now apply IH1.
    + intros v [[= <-]|Hv].
      * exists u. split; [now left|apply value_eqb_refl].
      * destruct (IH2 v Hv) as (w & Hw & E).
        destruct (value_eqb u w) eqn:Euw.
        -- exists u. split; [now left|].
           apply value_eqb_trans with w; [assumption|now rewrite value_eqb_sym].
        -- exists w. split; [|assumption]. right. apply filter_In.
           split; [assumption|now rewrite Euw].
    + constructor; [|now apply ForallOrdPairs_filter].
      rewrite Forall_forall. intros x Hx. apply filter_In in Hx as [_ Hx].
      now apply negb_true_iff in Hx.
  - split; [intros v Hv; right; now apply IH1|]. split; [|assumption].
    intros v [H|Hv]; [discriminate|now apply IH2].
Qed.

(** X4.  A multiselect of the sidebar offers exactly the distinct,
    non-missing values of its column, each once, and what the user selects
    becomes the filter list.  Without the column there is no widget: a
    sidebar warning is shown and the filter list is empty whatever the
    session holds. *)
Theorem multiselect_filter_options (label col : string) (influencers : DataFrame)
    (selection : list value) (st : State) :
  (forall cs,
      column influencers col = Ok cs ->
      multiselect_filter label col influencers selection st =
        (Ok selection, after st [Multiselect label (unique cs)]) /\
      (forall v, In v (unique cs) -> In (Some v) cs) /\
      (forall v, In (Some v) cs ->
                 exists w, In w (unique cs) /\ value_eqb v w = true) /\
      ForallOrdPairs (fun a b => value_eqb a b = false) (unique cs)) /\
  (has_column influencers col = false ->
   multiselect_filter label col influencers selection st =
     (Ok [], after st [SidebarWarning
                         ("No '" ++ col ++ "' column found in influencers data")%string])).
Proof.
  split.
  - intros cs Hcs. split; [|apply unique_spec].
    unfold multiselect_filter. rewrite Hcs. reflexivity.
  - intros Hno. unfold multiselect_filter, column, has_column in *.
    destruct (index_of col (columns influencers)); [discriminate|reflexivity].
Qed.

(** ** The date widget *)

Section Extremum.

Variable pick : Z -> Z -> Z.
Variable R : Z -> Z -> Prop.
Hypothesis pick_l : forall a b, R (pick a b) a.
Hypothesis pick_r : forall a b, R (pick a b) b.
Hypothesis pick_one : forall a b, pick a b = a \/ pick a b = b.
Hypothesis R_refl : forall a, R a a.
Hypothesis R_trans : forall a b c, R a b -> R b c -> R a c.




End Extremum.









(** ** Top influencers *)



(** ** Edge cases of the ROAS *)





(** ** Columns the sections cannot do without *)

(** X8.  A tracking table without the influencer_id column.  The
    performance section catches the failure of the join and shows it as an
    error message.  The revenue and orders section has no handler: if the
    revenue and orders columns are there, grouping raises KeyError after the
    section header, and nothing that follows in the script is run. *)
Theorem missing_influencer_id (srt : sorter) (ui : Session)
    (tracking influencers posts payouts : DataFrame) (st : State)
    (Hno : has_column tracking "influencer_id" = false) :
  performance_analysis srt tracking influencers posts st =
    (Ok tt, after st [Header "Campaign Performance Analysis";
                      Error "Error in performance analysis: 'influencer_id'"]) /\
  (has_column tracking "revenue" = true -> has_column tracking "orders" = true ->
   revenue_orders_summary srt tracking influencers st =
     (Raise (KeyError "influencer_id"), after st [Header "Revenue and Orders Summary"]) /\
   (revenue_orders_summary srt tracking influencers ;;
    rest_of_page srt ui payouts)%script st =
     (Raise (KeyError "influencer_id"), after st [Header "Revenue and Orders Summary"])).
Proof.
  unfold has_column in Hno.
  destruct (index_of "influencer_id" (columns tracking)) eqn:Hk; [discriminate|].
  split.
  - unfold performance_analysis, try_except, bind, lift, say, after, merged, merge.
    rewrite Hk. cbn. now rewrite <- app_assoc.
  - intros Hrev Hord.
    assert (H : revenue_orders_summary srt tracking influencers st =
                (Raise (KeyError "influencer_id"),
                 after st [Header "Revenue and Orders Summary"])).
    { unfold revenue_orders_summary, bind, lift, say, after, campaign_groupby,
        groupby_agg.
      cbn [printed name_col roas_summary campaign_summary].
      rewrite Hrev, Hord, Hk. reflexivity. }
    split; [assumption|]. unfold bind at 1. now rewrite H.
Qed.

Lemma missing_influencer_id_witness :
  performance_analysis stable_sort Examples.unkeyed Examples.influencers
    Examples.posts initial =
    (Ok tt, after initial [Header "Campaign Performance Analysis";
                           Error "Error in performance analysis: 'influencer_id'"]) /\
  revenue_orders_summary stable_sort Examples.unkeyed Examples.influencers initial =
    (Raise (KeyError "influencer_id"),
     after initial [Header "Revenue and Orders Summary"]) /\
  (revenue_orders_summary stable_sort Examples.unkeyed Examples.influencers ;;
   rest_of_page stable_sort Examples.session Examples.payouts)%script initial =
    (Raise (KeyError "influencer_id"),
     after initial [Header "Revenue and Orders Summary"]).
Proof.
  destruct (missing_influencer_id stable_sort Examples.session Examples.unkeyed
              Examples.influencers Examples.posts Examples.payouts initial eq_refl)
    as [H1 H2].
  split; [exact H1|]. apply H2; reflexivity.
Defined.

Lemma group_keys_nonempty v cs : In (Some v) cs -> group_keys cs <> [].
Proof.
  intros H E. destruct (group_keys_complete v cs H) as (k & Hk & _).
  rewrite E in Hk. contradiction.
Qed.

Lemma sorter_length srt key rs :
  sorter_ok srt -> List.length (srt key rs) = List.length rs.
Proof. intros H. apply Permutation_length, (sorter_perm srt H). Qed.

(** X9.  An influencer table with neither a username nor a name column,
    and a tracking table in which some record has an influencer_id.  The
    variable name_col is then never bound, and both summaries read it once
    they have a row to chart.  The revenue and orders section raises
    NameError after binding its sorted summary, which ends the script.  The
    performance section does the same inside its handler: it shows the
    error in place of the chart and the table, and the ROAS summary stays
    bound for the export. *)
Theorem no_name_column (srt : sorter) (tracking influencers posts m0 m : DataFrame)
    (kt k : nat) (v w : value) (st : State)
    (Hsrt : sorter_ok srt)
    (Hname : name_column influencers = None)
    (Hst : name_col st = None)
    (Hkt : index_of "influencer_id" (columns tracking) = Some kt)
    (Hrev : has_column tracking "revenue" = true)
    (Hord : has_column tracking "orders" = true)
    (Hv : In (Some v) (map (get kt) (rows tracking)))
    (Hm0 : merged tracking influencers posts = Ok m0)
    (Hrev0 : has_column m0 "revenue" = true)
    (Hord0 : has_column m0 "orders" = true)
    (Hm : roas_columns m0 = Ok m)
    (Hk : index_of "influencer_id" (columns m) = Some k)
    (HR : has_column m "ROAS" = true)
    (Hrevm : has_column m "revenue" = true)
    (Hordm : has_column m "orders" = true)
    (Hw : In (Some w) (map (get k) (rows m))) :
  (exists s,
      campaign_table srt tracking influencers = Ok s /\
      revenue_orders_summary srt tracking influencers st =
        (Raise (NameError "name_col"),
         mkState (printed st ++ [Header "Revenue and Orders Summary"])
                 None (roas_summary st) (Some s))) /\
  (exists s,
      roas_table srt m influencers = Ok s /\
      performance_analysis srt tracking influencers posts st =
        (Ok tt,
         mkState (printed st
                  ++ [Header "Campaign Performance Analysis";
                      Subheader "Top Performing Campaigns (by ROAS)";
                      Error "Error in performance analysis: name 'name_col' is not defined"])
                 None (Some s) (campaign_summary st))).
Proof.
  split.
  - destruct (campaign_groupby_total tracking kt Hkt Hrev Hord)
      as (g & ko & kr & Hg & Hgcols & Hgrows).
    set (s := mkDF (columns g) (srt (fun r => num_of (get 2 r)) (rows g))).
    assert (Hi : index_of "revenue" (columns g) = Some 2%nat)
      by (rewrite Hgcols; reflexivity).
    assert (Hs : sort_values srt g "revenue" = Ok s)
      by (unfold sort_values; rewrite Hi; reflexivity).
    assert (Hlen : (0 <? len s)%nat = true).
    { apply Nat.ltb_lt. unfold len, s. cbn [rows].
      rewrite (sorter_length srt _ _ Hsrt), Hgrows, length_map.
      pose proof (group_keys_nonempty v _ Hv).
      destruct (group_keys (map (get kt) (rows tracking))); [congruence|simpl; lia]. }
    exists s. split.
    + unfold campaign_table, campaign_named. rewrite Hg. simpl. now rewrite Hname.
    + unfold revenue_orders_summary, bind, lift, say, ret, set_campaign_summary,
        get_name_col.
      cbn [printed name_col roas_summary campaign_summary].
      rewrite Hrev, Hord. cbn [andb]. rewrite Hg, Hname.
      cbn [printed name_col roas_summary campaign_summary].
      rewrite Hs. cbn [printed name_col roas_summary campaign_summary].
      rewrite Hlen, Hst. reflexivity.
  - assert (Hkey : has_column m "influencer_id" = true)
      by (apply has_column_index; now exists k).
    destruct (roas_groupby_total m Hkey HR Hrevm Hordm) as (g & Hg & Hgcols).
    set (s := mkDF (columns g) (srt (fun r => num_of (get 1 r)) (rows g))).
    assert (Hi : index_of "ROAS" (columns g) = Some 1%nat)
      by (rewrite Hgcols; reflexivity).
    assert (Hs : sort_values srt g "ROAS" = Ok s)
      by (unfold sort_values; rewrite Hi; reflexivity).
    assert (Hlen : (0 <? len s)%nat = true).
    { apply Nat.ltb_lt. unfold len, s. cbn [rows].
      rewrite (sorter_length srt _ _ Hsrt).
      pose proof Hg as Hg'. apply groupby_agg_inv in Hg' as (k' & ix & Hk' & _ & _ & ->).
      rewrite Hk in Hk'. injection Hk' as <-. rewrite length_map.
      pose proof (group_keys_nonempty w _ Hw).
      destruct (group_keys (map (get k) (rows m))); [congruence|simpl; lia]. }
    assert (Hne : empty m = false).
    { unfold empty. apply in_map_iff in Hw as (r & _ & Hr).
      destruct (rows m); [contradiction|].
      destruct (columns m); [discriminate|reflexivity]. }
    exists s. split.
    + unfold roas_table, roas_named. rewrite Hg. simpl. now rewrite Hname.
    + unfold performance_analysis, try_except, bind, lift, say, ret, set_roas_summary,
        get_name_col.
      cbn [printed name_col roas_summary campaign_summary].
      rewrite Hm0, Hrev0, Hord0. cbn [andb]. rewrite Hm, Hne. cbn [negb].
      rewrite Hg, Hname. cbn [printed name_col roas_summary campaign_summary].
      rewrite Hs. cbn [printed name_col roas_summary campaign_summary].
      rewrite Hlen, Hst. cbn [printed name_col roas_summary campaign_summary str_exn].
      rewrite <- !app_assoc. reflexivity.
Qed.

Lemma no_name_column_witness :
  let m0 := Examples.or_empty
              (merged Examples.campaigns Examples.anonymous Examples.posts) in
  let m := Examples.or_empty (roas_columns m0) in
  (exists s,
      campaign_table stable_sort Examples.campaigns Examples.anonymous = Ok s /\
      revenue_orders_summary stable_sort Examples.campaigns Examples.anonymous initial =
        (Raise (NameError "name_col"),
         mkState (printed initial ++ [Header "Revenue and Orders Summary"])
                 None (roas_summary initial) (Some s))) /\
  (exists s,
      roas_table stable_sort m Examples.anonymous = Ok s /\
      performance_analysis stable_sort Examples.campaigns Examples.anonymous
        Examples.posts initial =
        (Ok tt,
         mkState (printed initial
                  ++ [Header "Campaign Performance Analysis";
                      Subheader "Top Performing Campaigns (by ROAS)";
                      Error "Error in performance analysis: name 'name_col' is not defined"])
                 None (Some s) (campaign_summary initial))).
Proof.
  apply (no_name_column stable_sort Examples.campaigns Examples.anonymous Examples.posts
           (Examples.or_empty
              (merged Examples.campaigns Examples.anonymous Examples.posts))
           (Examples.or_empty
              (roas_columns
                 (Examples.or_empty
                    (merged Examples.campaigns Examples.anonymous Examples.posts))))
           0 0 (VStr "inf1") (VStr "inf1") initial).
  - exact stable_sort_ok.
  - reflexivity.
  - reflexivity.
  - reflexivity.
  - reflexivity.
  - reflexivity.
  - simpl. now left.
  - reflexivity.
  - reflexivity.
  - reflexivity.
  - reflexivity.
  - reflexivity.
  - reflexivity.
  - reflexivity.
  - reflexivity.
  - simpl. now left.
Defined.

(** ** The payout section *)



(** ** Fan-out of the joins *)

Lemma join_row_left_length kl kr w rrows lr :
  List.length (join_row Left kl kr w rrows lr) =
  Nat.max 1 (List.length (filter (fun rr => cell_eqb (get kl lr) (get kr rr)) rrows)).
Proof.
  unfold join_row. destruct (filter _ rrows) as [|a l] eqn:E; [reflexivity|].
  rewrite length_map. simpl. reflexivity.
Qed.

Lemma flat_map_length_const {A B} (g : A -> list B) n l :
  (forall a, In a l -> List.length (g a) = n) ->
  List.length (flat_map g l) = (List.length l * n)%nat.
Proof.
  induction l as [|a l IH]; simpl; intros H; [reflexivity|].
  rewrite length_app, (H a (or_introl eq_refl)), IH; [reflexivity|].
  intros b Hb. apply H. now right.
Qed.

Lemma flat_map_flat_map_length {A B C} (f : A -> list B) (g : B -> list C)
    (n : A -> nat) l :
  (forall a b, In a l -> In b (f a) -> List.length (g b) = n a) ->
  List.length (flat_map g (flat_map f l)) =
  list_sum (map (fun a => List.length (f a) * n a)%nat l).
Proof.
  induction l as [|a l IH]; simpl; intros H; [reflexivity|].
  rewrite flat_map_app, length_app, IH by (intros; apply H; auto).
  f_equal. apply flat_map_length_const. intros b Hb. apply H; auto.
Qed.

Lemma suffix_x_not_key c : (c ++ "_x")%string <> "influencer_id".
Proof.
  intros H.
  do 14 (destruct c as [|? c]; [simpl in H; discriminate|]).
  simpl in H. discriminate.
Qed.

(** The key column keeps its place on the left of a join. *)
Lemma index_of_left_key sfx rcols on cols more k :
  (forall c, (c ++ sfx)%string <> on) ->
  index_of on cols = Some k ->
  index_of on (map (suffixed sfx rcols on) cols ++ more) = Some k.
Proof.
  intros Hs. revert k; induction cols as [|c cols IH]; simpl; intros k H;
    [discriminate|].
  unfold suffixed at 1. rewrite (String.eqb_sym c on).
  destruct (String.eqb_spec on c) as [<-|ne].
  - now rewrite String.eqb_refl.
  - destruct (index_of on cols) as [j|]; simpl in H; [|discriminate].
    injection H as <-. rewrite (IH j eq_refl).
    destruct (existsb (String.eqb c) rcols).
    + destruct (String.eqb_spec on (c ++ sfx)) as [E|_]; [|reflexivity].
      symmetry in E. now apply Hs in E.
    + destruct (String.eqb_spec on c); [contradiction|reflexivity].
Qed.

Lemma list_sum_ones {A} (f : A -> nat) l :
  (forall a, In a l -> f a = 1%nat) -> list_sum (map f l) = List.length l.
Proof.
  induction l as [|a l IH]; simpl; intros H; [reflexivity|].
  rewrite (H a (or_introl eq_refl)), IH; [reflexivity|].
  intros b Hb. apply H. now right.
Qed.

(** X11.  Fan-out of the joined table.  Every tracking record appears in
    it once for each pair of an influencer row and a post with its
    influencer_id, a side without such a row counting for one.  So the
    joined table has exactly as many rows as the tracking table when no
    influencer_id of a record is shared by two influencer rows or by two
    posts, and more rows otherwise, which then weigh more in the sums and
    means of the ROAS summary. *)
Theorem merged_fan_out (tracking influencers posts m : DataFrame) (kt : nat)
    (Hwf : well_formed tracking)
    (Hkt : index_of "influencer_id" (columns tracking) = Some kt)
    (Hm : merged tracking influencers posts = Ok m) :
  len m =
    list_sum (map (fun lr => Nat.max 1 (matches influencers (get kt lr))
                             * Nat.max 1 (matches posts (get kt lr)))%nat
                  (rows tracking)) /\
  ((forall lr, In lr (rows tracking) ->
               (matches influencers (get kt lr) <= 1)%nat /\
               (matches posts (get kt lr) <= 1)%nat) ->
   len m = len tracking).
Proof.
  assert (Hsum : len m =
    list_sum (map (fun lr => Nat.max 1 (matches influencers (get kt lr))
                             * Nat.max 1 (matches posts (get kt lr)))%nat
                  (rows tracking))).
  { unfold merged in Hm.
    destruct (merge tracking influencers "influencer_id" Left default_suffixes)
      as [m1|e] eqn:H1; simpl in Hm; [|discriminate].
    pose proof H1 as H1'. unfold merge in H1'. rewrite Hkt in H1'.
    destruct (index_of "influencer_id" (columns influencers)) as [ki|] eqn:Hki;
      [|discriminate].
    injection H1' as H1'.
    assert (Hrows1 : rows m1 =
              flat_map (join_row Left kt ki
                          (List.length (drop_nth ki (columns influencers)))
                          (rows influencers)) (rows tracking))
      by (now rewrite <- H1').
    assert (Hk1 : index_of "influencer_id" (columns m1) = Some kt).
    { rewrite <- H1'. cbn [columns fst default_suffixes].
      apply index_of_left_key; [apply suffix_x_not_key|assumption]. }
    assert (Hinf : forall lr,
              List.length (join_row Left kt ki
                             (List.length (drop_nth ki (columns influencers)))
                             (rows influencers) lr)
              = Nat.max 1 (matches influencers (get kt lr))).
    { intros lr. rewrite join_row_left_length. unfold matches. now rewrite Hki. }
    destruct (empty posts) eqn:He.
    - injection Hm as <-. unfold len. rewrite Hrows1, length_flat_map.
      f_equal. apply map_ext. intros lr. rewrite Hinf.
      assert (matches posts (get kt lr) = 0%nat) as ->.
      { unfold matches.
        destruct (index_of "influencer_id" (columns posts)) as [kp|] eqn:Hkp;
          [|reflexivity].
        unfold empty in He. destruct (rows posts) as [|r rs]; [reflexivity|].
        destruct (columns posts); [discriminate Hkp|discriminate He]. }
      simpl. lia.
    - pose proof Hm as Hm'. unfold merge in Hm'. rewrite Hk1 in Hm'.
      destruct (index_of "influencer_id" (columns posts)) as [kp|] eqn:Hkp;
        [|discriminate].
      injection Hm' as Hm'. unfold len. rewrite <- Hm'. cbn [rows]. rewrite Hrows1.
      rewrite (flat_map_flat_map_length _ _
                 (fun lr => Nat.max 1 (matches posts (get kt lr)))).
      + f_equal. apply map_ext. intros lr. now rewrite Hinf.
      + intros lr r1 Hlr Hr1. rewrite join_row_left_length.
        unfold matches. rewrite Hkp. do 2 f_equal.
        assert (Hsame : get kt r1 = get kt lr).
        { unfold well_formed in Hwf. rewrite Forall_forall in Hwf.
          apply index_of_lt in Hkt. rewrite <- (Hwf lr Hlr) in Hkt.
          apply join_row_inv in Hr1 as [(_ & -> & _)|(rr & _ & _ & ->)];
            now apply get_app_l. }
        apply filter_ext. intros rr. now rewrite Hsame. }
  split; [exact Hsum|].
  intros Huniq. rewrite Hsum. unfold len. apply list_sum_ones.
  intros lr Hlr. destruct (Huniq lr Hlr) as [H1 H2]. lia.
Qed.

Lemma merged_fan_out_witness :
  let m := Examples.or_empty
             (merged Examples.campaigns Examples.influencers Examples.three_posts) in
  len m =
    list_sum (map (fun lr => Nat.max 1 (matches Examples.influencers (get 0 lr))
                             * Nat.max 1 (matches Examples.three_posts (get 0 lr)))%nat
                  (rows Examples.campaigns)) /\
  len m = 6%nat /\
  ((forall lr, In lr (rows Examples.campaigns) ->
               (matches Examples.influencers (get 0 lr) <= 1)%nat /\
               (matches Examples.three_posts (get 0 lr) <= 1)%nat) ->
   len m = len Examples.campaigns).
Proof.
  destruct (merged_fan_out Examples.campaigns Examples.influencers Examples.three_posts
              (Examples.or_empty
                 (merged Examples.campaigns Examples.influencers Examples.three_posts))
              0) as [H1 H2].
  - repeat constructor.
  - reflexivity.
  - reflexivity.
  - cbv zeta. split; [exact H1|]. split; [reflexivity|exact H2].
Defined.

(** ** One row per influencer, totals conserved *)


















Section Partition.

Variable v : value.
Variable c : Q.
Variable g : value -> Q.



End Partition.








(** ** The page as a whole *)

Lemma appends_bind {A B} (m : Script A) (k : A -> Script B) :
  appends m -> (forall a, appends (k a)) -> appends (bind m k).
Proof.
  intros Hm Hk s r s'. unfold bind.
  destruct (m s) as [[a|e] s1] eqn:E.
  - intros H. destruct (Hm s _ s1 E) as [o1 H1].
    destruct (Hk a s1 r s' H) as [o2 H2].
    exists (o1 ++ o2). now rewrite H2, H1, app_assoc.
  - intros [= <- <-]. now apply (Hm s (Raise e) s1).
Qed.

Lemma appends_ret {A} (a : A) : appends (ret a).
Proof. intros s r s' [= <- <-]. exists []. now rewrite app_nil_r. Qed.

Lemma appends_lift {A} (x : result A) : appends (lift x).
Proof. intros s r s' [= <- <-]. exists []. now rewrite app_nil_r. Qed.

Lemma appends_say o : appends (say o).
Proof. intros s r s' [= <- <-]. now exists [o]. Qed.

Lemma appends_set_name_col c : appends (set_name_col c).
Proof. intros s r s' [= <- <-]. exists []. simpl. now rewrite app_nil_r. Qed.

Lemma appends_set_roas_summary df : appends (set_roas_summary df).
Proof. intros s r s' [= <- <-]. exists []. simpl. now rewrite app_nil_r. Qed.

Lemma appends_set_campaign_summary df : appends (set_campaign_summary df).
Proof. intros s r s' [= <- <-]. exists []. simpl. now rewrite app_nil_r. Qed.

Lemma appends_get_name_col : appends get_name_col.
Proof.
  intros s r s'. unfold get_name_col.
  destruct (name_col s); intros [= <- <-]; exists []; now rewrite app_nil_r.
Qed.

Lemma appends_locals {A} (var : State -> option A) : appends (locals var).
Proof. intros s r s' [= <- <-]. exists []. now rewrite app_nil_r. Qed.

Lemma appends_try_except body handler :
  appends body -> (forall e, appends (handler e)) -> appends (try_except body handler).
Proof.
  intros Hb Hh s r s'. unfold try_except.
  destruct (body s) as [[[]|e] s1] eqn:E.
  - intros [= <- <-]. now apply (Hb s (Ok tt) s1).
  - destruct (Hb s _ s1 E) as [o1 H1].
    destruct e; try (intros H; destruct (Hh _ s1 r s' H) as [o2 H2];
                     exists (o1 ++ o2); now rewrite H2, H1, app_assoc).
    intros [= <- <-]. now exists o1.
Qed.

Ltac appends :=
  repeat match goal with
    | |- appends (bind _ _) => apply appends_bind; [|intros ?]
    | |- appends (try_except _ _) => apply appends_try_except; [|intros ?]
    | |- appends (ret _) => apply appends_ret
    | |- appends (say _) => apply appends_say
    | |- appends (lift _) => apply appends_lift
    | |- appends (set_name_col _) => apply appends_set_name_col
    | |- appends (set_roas_summary _) => apply appends_set_roas_summary
    | |- appends (set_campaign_summary _) => apply appends_set_campaign_summary
    | |- appends get_name_col => apply appends_get_name_col
    | |- appends (locals _) => apply appends_locals
    | |- appends (if ?b then _ else _) => destruct b
    | |- appends (match ?x with _ => _ end) => destruct x
    end.





















(** ** Export *)

Lemma keeps_bind {A B} (m : Script A) (k : A -> Script B) :
  keeps_roas_summary m -> (forall a, keeps_roas_summary (k a)) ->
  keeps_roas_summary (bind m k).
Proof.
  intros Hm Hk s r s'. unfold bind.
  destruct (m s) as [[a|e] s1] eqn:E.
  - intros H. rewrite (Hk a s1 r s' H). exact (Hm s (Ok a) s1 E).
  - intros [= <- <-]. exact (Hm s (Raise e) s1 E).
Qed.

Lemma keeps_ret {A} (a : A) : keeps_roas_summary (ret a).
Proof. now intros s r s' [= <- <-]. Qed.

Lemma keeps_lift {A} (x : result A) : keeps_roas_summary (lift x).
Proof. now intros s r s' [= <- <-]. Qed.

Lemma keeps_say o : keeps_roas_summary (say o).
Proof. now intros s r s' [= <- <-]. Qed.

Lemma keeps_set_name_col c : keeps_roas_summary (set_name_col c).
Proof. now intros s r s' [= <- <-]. Qed.

Lemma keeps_set_campaign_summary df : keeps_roas_summary (set_campaign_summary df).
Proof. now intros s r s' [= <- <-]. Qed.

Lemma keeps_get_name_col : keeps_roas_summary get_name_col.
Proof.
  intros s r s'. unfold get_name_col. now destruct (name_col s); intros [= <- <-].
Qed.

Ltac keeps :=
  repeat match goal with
    | |- keeps_roas_summary (bind _ _) => apply keeps_bind; [|intros ?]
    | |- keeps_roas_summary (ret _) => apply keeps_ret
    | |- keeps_roas_summary (say _) => apply keeps_say
    | |- keeps_roas_summary (lift _) => apply keeps_lift
    | |- keeps_roas_summary (set_name_col _) => apply keeps_set_name_col
    | |- keeps_roas_summary (set_campaign_summary _) =>
        apply keeps_set_campaign_summary
    | |- keeps_roas_summary get_name_col => apply keeps_get_name_col
    | |- keeps_roas_summary (if ?b then _ else _) => destruct b
    | |- keeps_roas_summary (match ?x with _ => _ end) => destruct x
    end.

Lemma keeps_revenue_orders_summary srt t i :
  keeps_roas_summary (revenue_orders_summary srt t i).
Proof. unfold revenue_orders_summary. keeps. Qed.

Lemma keeps_payout_tracking srt y : keeps_roas_summary (payout_tracking srt y).
Proof. unfold payout_tracking. keeps. Qed.

(** X14.  What the export section offers.  The sections between the
    performance analysis and the export leave the ROAS summary alone, so
    the table offered for download is the one the performance section
    bound: the whole sorted summary, not only the ten rows shown on the
    page.  A button is offered for each of the three tables that is bound
    and not empty, in the order ROAS summary, payouts, campaign summary;
    the payout download is the payout file as loaded, not the sorted table
    of the payout section.  The export raises nothing and binds nothing. *)
Theorem export_offers_whole_tables (srt : sorter)
    (tracking influencers payouts s : DataFrame) (st1 st3 : State)
    (Hs : roas_summary st1 = Some s)
    (Hrun : (revenue_orders_summary srt tracking influencers ;;
             payout_tracking srt payouts)%script st1 = (Ok tt, st3)) :
  roas_summary st3 = Some s /\
  export payouts st3 =
    (Ok tt,
     after st3
       (Header "Export Data"
        :: (if empty s then []
            else [DownloadButton "Download ROAS Summary" s "roas_summary.csv"])
        ++ (if empty payouts then []
            else [DownloadButton "Download Payouts" payouts "payouts.csv"])
        ++ match campaign_summary st3 with
           | Some camp =>
               if empty camp then []
               else [DownloadButton "Download Campaign Summary" camp
                                    "campaign_summary.csv"]
           | None => []
           end)).
Proof.
  assert (Hkeep : roas_summary st3 = Some s).
  { rewrite <- Hs. revert Hrun.
    apply (keeps_bind (revenue_orders_summary srt tracking influencers)
             (fun _ => payout_tracking srt payouts)).
    - apply keeps_revenue_orders_summary.
    - intros _. apply keeps_payout_tracking. }
  split; [exact Hkeep|].
  unfold export, bind, say, ret, locals, after.
  cbn [printed name_col roas_summary campaign_summary]. rewrite Hkeep.
  destruct (empty s); cbn [negb printed name_col roas_summary campaign_summary];
    destruct (empty payouts);
    cbn [negb printed name_col roas_summary campaign_summary];
    (destruct (campaign_summary st3) as [camp|]; [destruct (empty camp)|]);
    cbn [negb printed name_col roas_summary campaign_summary app];
    rewrite <- ?app_assoc; reflexivity.
Qed.

Lemma export_offers_whole_tables_witness :
  let st1 := snd (performance_analysis stable_sort Examples.campaigns
                    Examples.influencers Examples.posts initial) in
  let st3 := snd ((revenue_orders_summary stable_sort Examples.campaigns
                     Examples.influencers ;;
                   payout_tracking stable_sort Examples.payouts)%script st1) in
  let s := Examples.or_empty
             (roas_table stable_sort Examples.tied Examples.influencers) in
  roas_summary st3 = Some s /\
  export Examples.payouts st3 =
    (Ok tt,
     after st3
       (Header "Export Data"
        :: (if empty s then []
            else [DownloadButton "Download ROAS Summary" s "roas_summary.csv"])
        ++ (if empty Examples.payouts then []
            else [DownloadButton "Download Payouts" Examples.payouts "payouts.csv"])
        ++ match campaign_summary st3 with
           | Some camp =>
               if empty camp then []
               else [DownloadButton "Download Campaign Summary" camp
                                    "campaign_summary.csv"]
           | None => []
           end)).
Proof.
  intros st1 st3 s.
  apply (export_offers_whole_tables stable_sort Examples.campaigns Examples.influencers
           Examples.payouts s st1 st3).
  - vm_compute. reflexivity.
  - vm_compute. reflexivity.
Defined.

(** ** The status chart *)








(** ** What the filters reach *)

Lemma framed_ret {A} (a : A) : framed (ret a).
Proof. intros s p. reflexivity. Qed.

Lemma framed_lift {A} (x : result A) : framed (lift x).
Proof. intros s p. reflexivity. Qed.

Lemma framed_say o : framed (say o).
Proof.
  intros s p. unfold say, with_printed. cbn [fst snd printed name_col roas_summary
                                             campaign_summary].
  now rewrite app_assoc.
Qed.

Lemma framed_set_name_col c : framed (set_name_col c).
Proof. intros s p. reflexivity. Qed.

Lemma framed_set_roas_summary df : framed (set_roas_summary df).
Proof. intros s p. reflexivity. Qed.

Lemma framed_set_campaign_summary df : framed (set_campaign_summary df).
Proof. intros s p. reflexivity. Qed.

Lemma framed_get_name_col : framed get_name_col.
Proof.
  intros s p. unfold get_name_col, with_printed. cbn [name_col].
  destruct (name_col s) eqn:E; cbn [fst snd printed name_col roas_summary
                                    campaign_summary]; now rewrite E.
Qed.

Lemma framed_locals {A} (var : State -> option A) :
  (forall s p, var (with_printed p s) = var s) -> framed (locals var).
Proof. intros H s p. unfold locals. now rewrite H. Qed.

Lemma framed_bind {A B} (m : Script A) (k : A -> Script B) :
  framed m -> (forall a, framed (k a)) -> framed (bind m k).
Proof.
  intros Hm Hk s p. unfold bind. rewrite (Hm s p).
  destruct (m s) as [[a|e] s1]; cbn [fst snd]; [|reflexivity].
  unfold with_printed at 1. fold (with_printed (p ++ printed s1) s1).
  rewrite (Hk a s1 p). now destruct (k a s1).
Qed.

Lemma framed_try_except body handler :
  framed body -> (forall e, framed (handler e)) -> framed (try_except body handler).
Proof.
  intros Hb Hh s p. unfold try_except. rewrite (Hb s p).
  destruct (body s) as [[[]|e] s1]; cbn [fst snd]; [reflexivity|].
  destruct e; try (rewrite (Hh _ s1 p); now destruct (handler _ s1)).
  reflexivity.
Qed.

Ltac framed :=
  repeat match goal with
    | |- framed (bind _ _) => apply framed_bind; [|intros ?]
    | |- framed (try_except _ _) => apply framed_try_except; [|intros ?]
    | |- framed (ret _) => apply framed_ret
    | |- framed (say _) => apply framed_say
    | |- framed (lift _) => apply framed_lift
    | |- framed (set_name_col _) => apply framed_set_name_col
    | |- framed (set_roas_summary _) => apply framed_set_roas_summary
    | |- framed (set_campaign_summary _) => apply framed_set_campaign_summary
    | |- framed get_name_col => apply framed_get_name_col
    | |- framed (locals _) => apply framed_locals; reflexivity
    | |- framed (if ?b then _ else _) => destruct b
    | |- framed (match ?x with _ => _ end) => destruct x
    end.


Lemma only_prints_bind {A B} (m : Script A) (k : A -> Script B) :
  only_prints m -> (forall a, only_prints (k a)) -> only_prints (bind m k).
Proof.
  intros Hm Hk s r s'. unfold bind.
  destruct (m s) as [[a|e] s1] eqn:E.
  - intros H. rewrite (Hk a s1 r s' H) at 1. rewrite (Hm s (Ok a) s1 E). reflexivity.
  - intros [= <- <-]. exact (Hm s (Raise e) s1 E).
Qed.

Lemma only_prints_ret {A} (a : A) : only_prints (ret a).
Proof. intros s r s' [= <- <-]. now destruct s. Qed.

Lemma only_prints_lift {A} (x : result A) : only_prints (lift x).
Proof. intros s r s' [= <- <-]. now destruct s. Qed.

Lemma only_prints_say o : only_prints (say o).
Proof. now intros s r s' [= <- <-]. Qed.

Ltac only_prints :=
  repeat match goal with
    | |- only_prints (bind _ _) => apply only_prints_bind; [|intros ?]
    | |- only_prints (ret _) => apply only_prints_ret
    | |- only_prints (say _) => apply only_prints_say
    | |- only_prints (lift _) => apply only_prints_lift
    | |- only_prints (if ?b then _ else _) => destruct b
    | |- only_prints (match ?x with _ => _ end) => destruct x
    end.












(** ** Totals of the campaign summary *)






